(** * Kinect shadow server and tilt utility: shallow embedding and properties

    The development follows the two programs of the repository:
    - [kinect_tilt.py]   : module [Tilt]   (one-shot motor command),
    - [kinect_server.py] : module [Server] (grid reducer, viewer sessions,
                                            broadcast loop).

    External collaborators (the freenect driver, the websocket transport,
    [json.loads], [int] on strings) are not part of the repository; they
    appear as scripted outcomes or as section variables. *)

From stdpp Require Import base gmap sets list strings.
From Stdlib Require Import ZArith QArith Lia.
Close Scope Q_scope.
Open Scope Z_scope.
Set Warnings "-register-all".

(* ===================================================================== *)
(** * Effects: state, exceptions, [try] *)
(* ===================================================================== *)

(** What a Python call does: it returns a value, or it raises. *)
Inductive outcome (E A : Type) : Type :=
| Returns (a : A)
| Raises (e : E).
Arguments Returns {E A} a.
Arguments Raises {E A} e.

Section Eff.
Context {S E : Type}.

(** A computation threads a state of type [S] and returns or raises. What
    was done to the state before an exception stays done. *)
Definition M (A : Type) : Type := S -> S * outcome E A.

Definition ret {A} (a : A) : M A := fun s => (s, Returns a).

Definition raise {A} (e : E) : M A := fun s => (s, Raises e).

Definition bind {A B} (m : M A) (k : A -> M B) : M B :=
  fun s =>
    match m s with
    | (s', Returns a) => k a s'
    | (s', Raises e) => (s', Raises e)
    end.

Definition get : M S := fun s => (s, Returns s).

Definition modify (f : S -> S) : M unit := fun s => (f s, Returns tt).

(** The outcome of a call that does not touch the state. *)
Definition lift {A} (o : outcome E A) : M A := fun s => (s, o).

(** [try: body except <class> as e: handler e]; [catches e] tells whether
    the exception belongs to the class. *)
Definition try_except {A} (body : M A) (catches : E -> bool)
    (handler : E -> M A) : M A :=
  fun s =>
    match body s with
    | (s', Returns a) => (s', Returns a)
    | (s', Raises e) => if catches e then handler e s' else (s', Raises e)
    end.

(** [try: body finally: cleanup] *)
Definition try_finally {A} (body : M A) (cleanup : M unit) : M A :=
  fun s =>
    match body s with
    | (s', o) =>
      match cleanup s' with
      | (s'', Returns _) => (s'', o)
      | (s'', Raises e) => (s'', Raises e)
      end
    end.

(** [[f x for x in xs]], and a [for] loop when the results are dropped. *)
Fixpoint for_each {A B} (xs : list A) (f : A -> M B) : M (list B) :=
  match xs with
  | [] => ret []
  | x :: xs' =>
    bind (f x) (fun y => bind (for_each xs' f) (fun ys => ret (y :: ys)))
  end.
End Eff.
Arguments M : clear implicits.

(** [m] keeps the state related by [R] to the state it started from. *)
Definition preserves {S E : Type} (R : S -> S -> Prop) {A} (m : M S E A) : Prop :=
  forall s, R s (fst (m s)).

Notation "'let*' x ':=' m 'in' k" := (bind m (fun x => k))
  (at level 10, x name, m at level 100, k at level 200).
Notation "m ;;; k" := (bind m (fun _ => k))
  (at level 100, k at level 200, right associativity).

(* ===================================================================== *)
(** * kinect_tilt.py *)
(* ===================================================================== *)

Module Tilt.

(** Handles returned by the driver. *)
Definition ctx := nat.
Definition dev := nat.
Definition tilt_state := nat.

(** An exception (a subclass of [Exception]) is known by its message.
    Only these are modelled: what is not a subclass of [Exception]
    ([KeyboardInterrupt], [SystemExit]) is not caught by the script and is
    outside of what is stated here. *)
Definition exn := string.
Definition result := outcome exn.

(** The freenect bindings as the script uses them.  [None] is Python's
    [None] (a failed [init] / [open_device], a falsy tilt state). *)
Record driver : Type := {
  init : result (option ctx);
  open_device : ctx -> Z -> result (option dev);
  set_tilt_degs : dev -> Z -> result unit;
  sleep : Z -> result unit;
  get_tilt_state : dev -> result (option tilt_state);
  get_tilt_degs : tilt_state -> result Z;
  close_device : dev -> result unit;
  shutdown : ctx -> result unit
}.

(** Lines printed by the script. *)
Inductive diag : Type :=
| DInitializing
| DContextFailed
| DOpenFailed
| DDetected
| DSetting (angle : Z)
| DWaiting
| DSuccess (requested actual : Z)
| DError (e : string)
| DUsage
| DNotAnAngle (arg : string)
| DOutsideRange (angle : Z)
| DClamping (angle : Z)
| DDone
| DFailed.

(** Observable actions, in the order they happen. *)
Inductive event : Type :=
| EInit
| EOpenDevice (c : ctx) (index : Z)
| ESetTilt (d : dev) (angle : Z)
| ESleep (seconds : Z)
| EGetTiltState (d : dev)
| EGetTiltDegs (s : tilt_state)
| ECloseDevice (d : dev)
| EShutdown (c : ctx)
| EPrint (m : diag).

(** The state of a run is the trace so far. *)
Definition T := M (list event) exn.

Definition print (m : diag) : T unit := modify (fun tr => tr ++ [EPrint m]).

(** A driver call is recorded when it is made, whatever it does. *)
Definition call {A} (ev : event) (o : result A) : T A :=
  modify (fun tr => tr ++ [ev]) ;;; lift o.

(** [max(-30, min(30, angle))] *)
Definition clamp (angle : Z) : Z := Z.max (-30) (Z.min 30 angle).

Definition set_kinect_tilt (drv : driver) (angle : Z) : T bool :=
  let angle := clamp angle in
  print DInitializing ;;;
  try_except
    (A := bool)
    (let* c := call EInit (init drv) in
     match c with
     | None => print DContextFailed ;;; ret false
     | Some c =>
       let* d := call (EOpenDevice c 0) (open_device drv c 0) in
       match d with
       | None =>
         print DOpenFailed ;;;
         call (EShutdown c) (shutdown drv c) ;;;
         ret false
       | Some d =>
         print DDetected ;;;
         print (DSetting angle) ;;;
         call (ESetTilt d angle) (set_tilt_degs drv d angle) ;;;
         print DWaiting ;;;
         call (ESleep 2) (sleep drv 2) ;;;
         let* state := call (EGetTiltState d) (get_tilt_state drv d) in
         match state with
         | Some s =>
           let* actual_angle := call (EGetTiltDegs s) (get_tilt_degs drv s) in
           print (DSuccess angle actual_angle)
         | None => ret tt
         end ;;;
         call (ECloseDevice d) (close_device drv d) ;;;
         call (EShutdown c) (shutdown drv c) ;;;
         ret true
       end
     end)
    (fun _ => true)
    (fun e => print (DError e) ;;; ret false).

(** [main]: [argv] is [sys.argv]; [int_of_arg] is [int(sys.argv[1])],
    [None] standing for [ValueError].  The result is the exit code. *)
Definition main (drv : driver) (int_of_arg : string -> option Z)
    (argv : list string) : T Z :=
  match argv with
  | [_; arg] =>
    match int_of_arg arg with
    | None => print (DNotAnAngle arg) ;;; ret 1
    | Some angle =>
      let* angle := (if (angle <? -30) || (angle >? 30)
                     then print (DOutsideRange angle) ;;;
                          print (DClamping (clamp angle)) ;;;
                          ret (clamp angle)
                     else ret angle) in
      let* success := set_kinect_tilt drv angle in
      if success : bool then print DDone ;;; ret 0 else print DFailed ;;; ret 1
    end
  | _ => print DUsage ;;; ret 1
  end.

(** Running a computation from the empty trace. *)
Definition run {A} (m : T A) : list event * result A := m [].

(** A device that is opened and whose tilt command raises. *)
Definition drv_tilt_fails : driver := {|
  init := Returns (Some 7%nat);
  open_device := fun _ _ => Returns (Some 3%nat);
  set_tilt_degs := fun _ _ => Raises "USB transfer failed";
  sleep := fun _ => Returns tt;
  get_tilt_state := fun _ => Returns (Some 1%nat);
  get_tilt_degs := fun _ => Returns 0;
  close_device := fun _ => Returns tt;
  shutdown := fun _ => Returns tt
|}.

(** A device on which every call succeeds; the motor reports [actual]. *)
Definition drv_ok (actual : Z) : driver := {|
  init := Returns (Some 7%nat);
  open_device := fun _ _ => Returns (Some 3%nat);
  set_tilt_degs := fun _ _ => Returns tt;
  sleep := fun _ => Returns tt;
  get_tilt_state := fun _ => Returns (Some 1%nat);
  get_tilt_degs := fun _ => Returns actual;
  close_device := fun _ => Returns tt;
  shutdown := fun _ => Returns tt
|}.

(** ** Vocabulary of the statements *)

(** The calls into the driver among the events of a trace. *)
Definition is_driver_call (ev : event) : bool :=
  match ev with EPrint _ => false | _ => true end.

Definition driver_calls (tr : list event) : list event :=
  List.filter is_driver_call tr.

Definition is_set_tilt (ev : event) : bool :=
  match ev with ESetTilt _ _ => true | _ => false end.

Definition tilt_commands (tr : list event) : nat :=
  length (List.filter is_set_tilt tr).

(** Every call the script makes on its way to [return True] returns, with a
    context and a device where one is expected. *)
Definition all_calls_succeed (drv : driver) (angle : Z) : Prop :=
  exists c d,
    init drv = Returns (Some c) /\
    open_device drv c 0 = Returns (Some d) /\
    set_tilt_degs drv d (clamp angle) = Returns tt /\
    sleep drv 2 = Returns tt /\
    (get_tilt_state drv d = Returns None \/
     exists s a, get_tilt_state drv d = Returns (Some s) /\
                 get_tilt_degs drv s = Returns a) /\
    close_device drv d = Returns tt /\
    shutdown drv c = Returns tt.

(** The handles an event mentions are handles the driver gave out. *)
Definition from_driver (drv : driver) (ev : event) : Prop :=
  match ev with
  | EInit | EPrint _ | ESleep _ => True
  | EOpenDevice c index => init drv = Returns (Some c) /\ index = 0
  | EShutdown c => init drv = Returns (Some c)
  | ESetTilt d _ | EGetTiltState d | ECloseDevice d =>
    exists c, init drv = Returns (Some c) /\ open_device drv c 0 = Returns (Some d)
  | EGetTiltDegs s =>
    exists c d, init drv = Returns (Some c) /\
                open_device drv c 0 = Returns (Some d) /\
                get_tilt_state drv d = Returns (Some s)
  end.

End Tilt.

(* ===================================================================== *)
(** * kinect_server.py *)
(* ===================================================================== *)

Module Server.

(** ** Python values

    The values [json.loads] can produce.  The grid dimensions of the
    server are whatever value a viewer sent, so they are kept as such. *)

Inductive pyfloat : Type :=
| FNan
| FInf (negative : bool)
| FFinite (q : Q).

Inductive pyval : Type :=
| PyNone
| PyBool (b : bool)
| PyInt (z : Z)
| PyFloat (f : pyfloat)
| PyStr (s : string)
| PyList (l : list pyval)
| PyDict (d : list (string * pyval)).

Inductive exn : Type :=
| JSONDecodeError
| TypeError
| ValueError
| KeyError
| OverflowError
| ConnectionClosed
| SensorError (msg : string).

Definition result := outcome exn.

Definition is_JSONDecodeError (e : exn) : bool :=
  match e with JSONDecodeError => true | _ => false end.

Definition is_ConnectionClosed (e : exn) : bool :=
  match e with ConnectionClosed => true | _ => false end.

(** Every class above derives from [Exception]. *)
Definition is_Exception (e : exn) : bool := true.

Fixpoint assoc (key : string) (d : list (string * pyval)) : option pyval :=
  match d with
  | [] => None
  | (k, v) :: d' => if String.eqb k key then Some v else assoc key d'
  end.

(** [key in data], [key] a string. *)
Definition py_contains (key : string) (data : pyval) : result bool :=
  match data with
  | PyDict d => Returns (match assoc key d with Some _ => true | None => false end)
  | PyList l =>
    Returns (existsb (fun v => match v with
                               | PyStr s => String.eqb s key
                               | _ => false
                               end) l)
  | PyStr s => Returns (match String.index 0 key s with Some _ => true | None => false end)
  | PyNone | PyBool _ | PyInt _ | PyFloat _ => Raises TypeError
  end.

(** [data[key]], [key] a string. *)
Definition py_getitem (data : pyval) (key : string) : result pyval :=
  match data with
  | PyDict d =>
    match assoc key d with
    | Some v => Returns v
    | None => Raises KeyError
    end
  | _ => Raises TypeError
  end.

(** Truncation toward zero, as [int] does on a float. *)
Definition Qtrunc (q : Q) : Z := Z.quot (Qnum q) (Zpos (Qden q)).

(** [int(v)]; [int_of_str] is [int] on a string, [None] for [ValueError]. *)
Definition py_int (int_of_str : string -> option Z) (v : pyval) : result Z :=
  match v with
  | PyInt z => Returns z
  | PyBool b => Returns (if b then 1 else 0)
  | PyFloat FNan => Raises ValueError
  | PyFloat (FInf _) => Raises OverflowError
  | PyFloat (FFinite q) => Returns (Qtrunc q)
  | PyStr s =>
    match int_of_str s with
    | Some z => Returns z
    | None => Raises ValueError
    end
  | PyNone | PyList _ | PyDict _ => Raises TypeError
  end.

(** A value used as a count ([range(v)], [[False] * v]): integers and
    booleans, anything else is a [TypeError]. *)
Definition py_index (v : pyval) : result Z :=
  match v with
  | PyInt z => Returns z
  | PyBool b => Returns (if b then 1 else 0)
  | _ => Raises TypeError
  end.

(** [range(n)] *)
Definition py_range (n : Z) : list Z := map Z.of_nat (seq 0 (Z.to_nat n)).

(** A count is converted to an index-sized (64-bit signed) integer before
    a list is repeated; outside that range the conversion raises. *)
Definition index_limit : Z := 2 ^ 63.

Definition fits_index (n : Z) : bool := (- index_limit <=? n) && (n <? index_limit).

(** [[x] * n]: no element for a negative count, [OverflowError] for a count
    that is not index-sized. *)
Definition py_repeat {A} (x : A) (n : Z) : result (list A) :=
  if fits_index n then Returns (repeat x (Z.to_nat n)) else Raises OverflowError.

(** [l[a:b]] *)
Definition norm_index (len i : Z) : Z :=
  if i <? 0 then Z.max 0 (i + len) else Z.min i len.

Definition py_slice {A} (a b : Z) (l : list A) : list A :=
  let len := Z.of_nat (length l) in
  let a' := norm_index len a in
  let b' := norm_index len b in
  firstn (Z.to_nat (b' - a')) (skipn (Z.to_nat a') l).

(** [int(a / b)] for integers [a], [b]: the quotient truncated toward
    zero (the float quotient is exact enough at image sizes). *)
Definition int_div (a b : Z) : Z := Z.quot a b.

(** ** Depth frames *)

(** A two-dimensional array: [shape] is [(height, width)]. *)
Record ndarray : Type := {
  shape : Z * Z;
  samples : list (list Z)
}.

Definition well_formed (a : ndarray) : Prop :=
  Z.of_nat (length (samples a)) = fst (shape a) /\
  Forall (fun row => Z.of_nat (length row) = snd (shape a)) (samples a).

(** [a[y1:y2, x1:x2]], as the list of its rows. *)
Definition region_of (a : ndarray) (y1 y2 x1 x2 : Z) : list (list Z) :=
  map (py_slice x1 x2) (py_slice y1 y2 (samples a)).

Definition Zsum (l : list Z) : Z := fold_right Z.add 0 l.

(** [np.mean(region)]: [None] is [nan], the mean of no sample. *)
Definition np_mean (region : list (list Z)) : option Q :=
  let xs := concat region in
  match xs with
  | [] => None
  | _ => Some (Qmake (Zsum xs) (Pos.of_nat (length xs)))
  end.

Definition Qltb (x y : Q) : bool := Qnum x * Zpos (Qden y) <? Qnum y * Zpos (Qden x).

(** An integer is turned into a double before NumPy (version 2) compares a
    [float64] with it: from magnitude [2^1024 - 2^970] on, the nearest double
    would be [2^1024] and the conversion raises [OverflowError]. *)
Definition double_limit : Z := 2 ^ 1024 - 2 ^ 970.

Definition float_overflows (z : Z) : bool := double_limit <=? Z.abs z.

(** [avg_depth < depth_threshold and avg_depth > 400] on numbers; every
    comparison with [nan] is false. *)
Definition strictly_inside (avg_depth : option Q) (depth_threshold : Z) : bool :=
  match avg_depth with
  | None => false
  | Some avg => Qltb avg (inject_Z depth_threshold) && Qltb (inject_Z 400) avg
  end.

(** [bool(avg_depth < depth_threshold and avg_depth > 400)]: the threshold
    is converted first, whatever [avg_depth] is. *)
Definition is_shadow (avg_depth : option Q) (depth_threshold : Z) : result bool :=
  if float_overflows depth_threshold then Raises OverflowError
  else Returns (strictly_inside avg_depth depth_threshold).

(** ** The server object *)

Definition client := nat.

Record server : Type := {
  grid_width : pyval;
  grid_height : pyval;
  depth_threshold : Z;
  clients : gset client;
  is_running : bool
}.

Record message : Type := {
  m_type : string;
  m_data : list (list bool);
  m_grid_width : pyval;
  m_grid_height : pyval;
  m_threshold : Z;
  m_shadow_cells : Z;
  m_frame : Z
}.

Inductive diag : Type :=
| DDepthError (e : exn)
| DConnected (c : client) (total : nat)
| DDisconnected (c : client) (total : nat)
| DThreshold (t : Z)
| DGridSize (w h : pyval)
| DInvalidJson (text : string)
| DFrame (frame shadow_cells : Z) (total : nat).

(** What the process has done: the object, the lines printed, and every
    send attempted with what became of it. *)
Record world : Type := {
  self : server;
  stdout : list diag;
  wire : list (client * message * result unit)
}.

Definition S := M world exn.

Definition printed (d : diag) (w : world) : world :=
  {| self := self w; stdout := stdout w ++ [d]; wire := wire w |}.

Definition print (d : diag) : S unit := modify (printed d).

Definition update (f : server -> server) : S unit :=
  modify (fun w => {| self := f (self w); stdout := stdout w; wire := wire w |}).

Definition record_send (c : client) (m : message) (r : result unit) : S unit :=
  modify (fun w => {| self := self w; stdout := stdout w; wire := wire w ++ [(c, m, r)] |}).

Definition read {A} (f : server -> A) : S A := let* w := get in ret (f (self w)).

Definition set_grid_width (v : pyval) (s : server) : server :=
  {| grid_width := v; grid_height := grid_height s;
     depth_threshold := depth_threshold s; clients := clients s;
     is_running := is_running s |}.

Definition set_grid_height (v : pyval) (s : server) : server :=
  {| grid_width := grid_width s; grid_height := v;
     depth_threshold := depth_threshold s; clients := clients s;
     is_running := is_running s |}.

Definition set_depth_threshold (t : Z) (s : server) : server :=
  {| grid_width := grid_width s; grid_height := grid_height s;
     depth_threshold := t; clients := clients s;
     is_running := is_running s |}.

Definition set_clients (cs : gset client) (s : server) : server :=
  {| grid_width := grid_width s; grid_height := grid_height s;
     depth_threshold := depth_threshold s; clients := cs;
     is_running := is_running s |}.

(** ** Grid reducer *)

(** The body of the two loops for the cell [(gx, gy)]: the bounds of the
    source region, its mean, the test. *)
Definition cell_bounds (extent cells g : Z) : Z * Z :=
  (int_div (g * extent) cells, int_div ((g + 1) * extent) cells).

Definition source_region (depth : ndarray) (grid_width grid_height : Z)
    (gx gy : Z) : list (list Z) :=
  let '(depth_height, depth_width) := shape depth in
  let '(dx1, dx2) := cell_bounds depth_width grid_width gx in
  let '(dy1, dy2) := cell_bounds depth_height grid_height gy in
  region_of depth dy1 dy2 dx1 dx2.

Definition cell (depth : ndarray) (grid_width grid_height depth_threshold : Z)
    (gx gy : Z) : result bool :=
  let region := source_region depth grid_width grid_height gx gy in
  let avg_depth := np_mean region in
  is_shadow avg_depth depth_threshold.

(** The [try] block of [get_shadow_mask]; [sensor] is what
    [freenect.sync_get_depth()] does when it is called. *)
Definition reduction (sensor : result ndarray) : S (list (list bool)) :=
  let* depth := lift sensor in
  let* h := read grid_height in
  let* gh := lift (py_index h) in
  for_each (py_range gh) (fun gy =>
    let* w := read grid_width in
    let* gw := lift (py_index w) in
    for_each (py_range gw) (fun gx =>
      let* threshold := read depth_threshold in
      lift (cell depth gw gh threshold gx gy))).

(** The [except] clause of [get_shadow_mask]. *)
Definition fallback (e : exn) : S (list (list bool)) :=
  print (DDepthError e) ;;;
  let* h := read grid_height in
  let* gh := lift (py_index h) in
  for_each (py_range gh) (fun _ =>
    let* w := read grid_width in
    let* gw := lift (py_index w) in
    lift (py_repeat false gw)).

Definition get_shadow_mask (sensor : result ndarray) : S (list (list bool)) :=
  try_except (reduction sensor) is_Exception fallback.

(** What a cell is when the comparison does not raise. *)
Definition cell_value (depth : ndarray) (gw gh threshold : Z) (gx gy : Z) : bool :=
  strictly_inside (np_mean (source_region depth gw gh gx gy)) threshold.

(** The grid the two loops build from a frame, and the grid of the
    [except] clause. *)
Definition grid_of (depth : ndarray) (gw gh threshold : Z) : list (list bool) :=
  map (fun gy => map (fun gx => cell_value depth gw gh threshold gx gy) (py_range gw))
      (py_range gh).


(** The threshold converts to a double; the width is index-sized. *)
Definition float_ok (threshold : Z) : Prop := Z.abs threshold < double_limit.


(** Following the spec's words (4.1): [dx1 = floor(gx * W / grid_width)],
    [dx2 = floor((gx + 1) * W / grid_width)], the same for [y], and the
    average of all depth samples in [[dy1, dy2) x [dx1, dx2)]. *)
Definition spec_bounds (g extent cells : Z) : Z * Z :=
  (g * extent / cells, (g + 1) * extent / cells).

(** The integers of [[a, b)]. *)
Definition span (a b : Z) : list Z :=
  map (fun i => a + Z.of_nat i) (seq 0 (Z.to_nat (b - a))).

(** [depth[y][x]] *)
Definition sample_at (depth : ndarray) (y x : Z) : Z :=
  nth (Z.to_nat x) (nth (Z.to_nat y) (samples depth) []) 0.

Definition spec_samples (depth : ndarray) (grid_width grid_height gx gy : Z) : list Z :=
  let '(dx1, dx2) := spec_bounds gx (snd (shape depth)) grid_width in
  let '(dy1, dy2) := spec_bounds gy (fst (shape depth)) grid_height in
  flat_map (fun y => map (fun x => sample_at depth y x) (span dx1 dx2)) (span dy1 dy2).

(** The average of those samples; there is none when there is no sample. *)
Definition spec_mean (depth : ndarray) (grid_width grid_height gx gy : Z) : option Q :=
  match spec_samples depth grid_width grid_height gx gy with
  | [] => None
  | v :: vs => Some (Qmake (Zsum (v :: vs)) (Pos.of_nat (length (v :: vs))))
  end.

(** [mask[gy][gx]] *)
Definition mask_at (mask : list (list bool)) (gx gy : Z) : option bool :=
  match nth_error mask (Z.to_nat gy) with
  | Some row => nth_error row (Z.to_nat gx)
  | None => None
  end.

(** Width and height of the source region of a cell, from its bounds. *)
Definition region_extent (depth : ndarray) (grid_width grid_height : Z)
    (gx gy : Z) : Z * Z :=
  let '(depth_height, depth_width) := shape depth in
  let '(dx1, dx2) := cell_bounds depth_width grid_width gx in
  let '(dy1, dy2) := cell_bounds depth_height grid_height gy in
  (dx2 - dx1, dy2 - dy1).

(** Thresholding one sample. *)
Definition pixel_shadow (depth_threshold : Z) (v : Z) : bool :=
  (v <? depth_threshold) && (400 <? v).

(** ** Viewer sessions *)

Section Session.
(** [json.loads] on a text message ([None] for [JSONDecodeError]) and
    [int] on a string. *)
Variable json_loads : string -> option pyval.
Variable int_of_str : string -> option Z.

(** The body of [async for message in websocket]. *)
Definition on_message (text : string) : S unit :=
  try_except
    (let* data := lift (match json_loads text with
                        | Some v => Returns v
                        | None => Raises JSONDecodeError
                        end) in
     let* has_threshold := lift (py_contains "threshold" data) in
     (if has_threshold : bool then
        let* v := lift (py_getitem data "threshold") in
        let* t := lift (py_int int_of_str v) in
        update (set_depth_threshold t) ;;;
        print (DThreshold t)
      else ret tt) ;;;
     let* has_grid_size := lift (py_contains "grid_size" data) in
     (if has_grid_size : bool then
        let* size := lift (py_getitem data "grid_size") in
        let* w := lift (py_getitem size "width") in
        update (set_grid_width w) ;;;
        let* size := lift (py_getitem data "grid_size") in
        let* h := lift (py_getitem size "height") in
        update (set_grid_height h) ;;;
        let* w := read grid_width in
        let* h := read grid_height in
        print (DGridSize w h)
      else ret tt))
    is_JSONDecodeError
    (fun _ => print (DInvalidJson text)).

(** [self.clients.remove(websocket)] *)
Definition remove_client (websocket : client) : S unit :=
  let* cs := read clients in
  if decide (websocket ∈ cs)
  then update (set_clients (cs ∖ {[websocket]}))
  else raise KeyError.

(** The [finally] clause of [handle_client]. *)
Definition on_close (websocket : client) : S unit :=
  remove_client websocket ;;;
  let* cs := read clients in
  print (DDisconnected websocket (size cs)).

(** [handle_client] on a connection that delivers [incoming] and is
    then closed, cleanly or ([abrupt]) with [ConnectionClosed].  When
    the result is [Raises], the exception left the handler and the
    transport closes the connection. *)
Definition handle_client (websocket : client) (incoming : list string)
    (abrupt : bool) : S unit :=
  let* cs := read clients in
  update (set_clients ({[websocket]} ∪ cs)) ;;;
  let* cs := read clients in
  print (DConnected websocket (size cs)) ;;;
  try_finally
    (try_except
       (for_each incoming on_message ;;;
        if abrupt then raise ConnectionClosed else ret tt)
       is_ConnectionClosed
       (fun _ => ret tt))
    (on_close websocket).
End Session.

(** ** Broadcast loop *)

Definition Zof_bool (b : bool) : Z := if b then 1 else 0.

(** [sum(sum(row) for row in mask)] *)
Definition shadow_count (mask : list (list bool)) : Z :=
  Zsum (map (fun row => Zsum (map Zof_bool row)) mask).

(** One pass through the body of [while self.is_running], the pause at
    its end left out.  [sensor] is what the sensor does if polled and
    [send c] what [c.send(message)] does; the sends are gathered with
    [return_exceptions=True], so each outcome is collected and none is
    raised.  The result is the new [frame_count]. *)
Definition broadcast_iteration (sensor : result ndarray)
    (send : client -> result unit) (frame_count : Z) : S Z :=
  let* cs := read clients in
  if decide (cs = ∅) then ret frame_count
  else
    let* mask := get_shadow_mask sensor in
    let shadow_count := shadow_count mask in
    let* w := read grid_width in
    let* h := read grid_height in
    let* t := read depth_threshold in
    let message :=
      {| m_type := "shadow_mask"; m_data := mask;
         m_grid_width := w; m_grid_height := h; m_threshold := t;
         m_shadow_cells := shadow_count; m_frame := frame_count |} in
    let* cs := read clients in
    (if decide (cs = ∅) then ret []
     else for_each (elements cs) (fun c => record_send c message (send c))) ;;;
    let frame_count := frame_count + 1 in
    let* cs := read clients in
    (if frame_count mod 30 =? 0
     then print (DFrame frame_count shadow_count (size cs))
     else ret tt) ;;;
    ret frame_count.

(** [broadcast_shadow_data] over the passes described by [ticks]; an
    exception that reaches the loop ends it. *)
Fixpoint broadcast_loop (ticks : list (result ndarray * (client -> result unit)))
    (frame_count : Z) : S Z :=
  match ticks with
  | [] => ret frame_count
  | (sensor, send) :: ticks' =>
    let* running := read is_running in
    if running : bool then
      let* frame_count := broadcast_iteration sensor send frame_count in
      broadcast_loop ticks' frame_count
    else ret frame_count
  end.

Definition broadcast_shadow_data
    (ticks : list (result ndarray * (client -> result unit))) : S Z :=
  broadcast_loop ticks 0.

(** ** The event loop

    Handlers and the broadcast loop run on one thread and give way only
    at an [await]: while a message is awaited, while the sends are
    gathered, during the pause.  What runs between two such points is
    one step. *)
Inductive input : Type :=
| Connect (c : client)
| Message (c : client) (text : string)
| Disconnect (c : client)
| Tick (sensor : result ndarray) (send : client -> result unit).

Section Loop.
Variable json_loads : string -> option pyval.
Variable int_of_str : string -> option Z.

(** An exception that leaves a handler is taken by the transport. *)
Definition in_handler (m : S unit) : S unit :=
  try_except m is_Exception (fun _ => ret tt).

(** One step.  A handler that raises runs its [finally] clause and
    ends; only an exception in the broadcast loop reaches [start]. *)
Definition step (i : input) (frame_count : Z) : S Z :=
  match i with
  | Connect c =>
    let* cs := read clients in
    update (set_clients ({[c]} ∪ cs)) ;;;
    let* cs := read clients in
    print (DConnected c (size cs)) ;;;
    ret frame_count
  | Message c text =>
    in_handler
      (try_except (on_message json_loads int_of_str text) is_Exception
         (fun e => on_close c ;;; raise e)) ;;;
    ret frame_count
  | Disconnect c =>
    in_handler (on_close c) ;;;
    ret frame_count
  | Tick sensor send =>
    let* running := read is_running in
    if running : bool then broadcast_iteration sensor send frame_count
    else ret frame_count
  end.

Fixpoint run (inputs : list input) (frame_count : Z) : S Z :=
  match inputs with
  | [] => ret frame_count
  | i :: inputs' =>
    let* frame_count := step i frame_count in
    run inputs' frame_count
  end.
End Loop.

(** The object [main] builds, with [--grid w h --threshold t]. *)
Definition new_server (w h t : Z) : server :=
  {| grid_width := PyInt w; grid_height := PyInt h; depth_threshold := t;
     clients := ∅; is_running := true |}.

Definition new_world (s : server) : world :=
  {| self := s; stdout := []; wire := [] |}.

(** ** Vocabulary of the statements *)

(** The message a pass builds from the object, the mask and the counter. *)
Definition message_of (s : server) (mask : list (list bool)) (frame_count : Z)
    : message :=
  {| m_type := "shadow_mask"; m_data := mask;
     m_grid_width := grid_width s; m_grid_height := grid_height s;
     m_threshold := depth_threshold s;
     m_shadow_cells := shadow_count mask; m_frame := frame_count |}.

(** The attempts of one fan-out. *)
Definition deliveries (cs : gset client) (m : message)
    (send : client -> result unit) : list (client * message * result unit) :=
  map (fun c => (c, m, send c)) (elements cs).

Definition sent (w : world) (ds : list (client * message * result unit)) : world :=
  {| self := self w; stdout := stdout w; wire := wire w ++ ds |}.

(** Number of [True] cells of a grid. *)
Definition true_cells (mask : list (list bool)) : Z :=
  Z.of_nat (length (List.filter (fun b : bool => b) (concat mask))).

(** The metadata of a message describe its data: the count of shadow
    cells always, the dimensions as far as they are dimensions. *)
Definition metadata_agree (m : message) : Prop :=
  m_shadow_cells m = true_cells (m_data m) /\
  forall gw gh,
    m_grid_width m = PyInt gw -> m_grid_height m = PyInt gh ->
    0 <= gw -> 0 <= gh ->
    Z.of_nat (length (m_data m)) = gh /\
    List.Forall (fun row => Z.of_nat (length row) = gw) (m_data m).

(** The same without the proviso on the dimensions. *)
Definition metadata_match (m : message) : Prop :=
  m_shadow_cells m = true_cells (m_data m) /\
  m_grid_height m = PyInt (Z.of_nat (length (m_data m))) /\
  List.Forall (fun row => m_grid_width m = PyInt (Z.of_nat (length row))) (m_data m).

(** Every message of a list of attempts agrees with its data. *)
Definition all_agree (ds : list (client * message * result unit)) : Prop :=
  List.Forall (fun d => metadata_agree (snd (fst d))) ds.

(** Two worlds that differ at most in what was printed, and two worlds with
    the same wire. *)
Definition only_printed (w w' : world) : Prop :=
  self w' = self w /\ wire w' = wire w.

Definition same_wire (w w' : world) : Prop := wire w' = wire w.

(** A computation that only reads leaves the world as it was. *)
Definition unchanged (w w' : world) : Prop := w' = w.

(** Two worlds with the same connection set, running flag and wire. *)
Definition same_connections (w w' : world) : Prop :=
  clients (self w') = clients (self w) /\
  is_running (self w') = is_running (self w) /\
  wire w' = wire w.

(** ** Sample data *)

(** A frame of two rows of four samples. *)
Definition small_frame : ndarray :=
  {| shape := (2, 4);
     samples := [[500; 700; 300; 100]; [900; 1300; 500; 401]] |}.

(** What [json.loads] returns on [{grid_size: {width: 80}}], on
    [{grid_size: {width: -1, height: -1}}] and on
    [{threshold: 900, grid_size: {width: 80, height: 60}}]. *)
Definition width_only : pyval :=
  PyDict [("grid_size", PyDict [("width", PyInt 80)])].

Definition negative_size : pyval :=
  PyDict [("grid_size", PyDict [("width", PyInt (-1)); ("height", PyInt (-1))])].

Definition full_update : pyval :=
  PyDict [("threshold", PyInt 900);
          ("grid_size", PyDict [("width", PyInt 80); ("height", PyInt 60)])].

(** A server with two viewers and the given configuration. *)
Definition serving (w h : pyval) (t : Z) : world :=
  new_world {| grid_width := w; grid_height := h; depth_threshold := t;
               clients := {[1%nat; 2%nat]}; is_running := true |}.

End Server.

(* ===================================================================== *)
(** * Properties of the tilt utility *)
(* ===================================================================== *)

Module TiltFacts.
Import Tilt.





Lemma clamp_idempotent angle : clamp (clamp angle) = clamp angle.
Proof. unfold clamp. lia. Qed.

(** Unfolds one run of the script into the case analysis on what the
    driver does. *)
Ltac run_script :=
  unfold run, set_kinect_tilt, call, print, try_except, bind, modify, lift, ret;
  cbn [fst snd app].

Ltac driver_cases :=
  repeat match goal with
         | |- context [match ?o with Returns _ => _ | Raises _ => _ end] =>
           destruct o eqn:?; cbn [fst snd app]
         | |- context [match ?o with Some _ => _ | None => _ end] =>
           destruct o eqn:?; cbn [fst snd app]
         end.







(** When the tilt command raises, the handler prints the error and the
    function returns: nothing after the failing call is run. *)
Lemma release_skipped_on_failure drv angle c d e :
  init drv = Returns (Some c) ->
  open_device drv c 0 = Returns (Some d) ->
  set_tilt_degs drv d (clamp angle) = Raises e ->
  run (set_kinect_tilt drv angle) =
    ([EPrint DInitializing; EInit; EOpenDevice c 0; EPrint DDetected;
      EPrint (DSetting (clamp angle)); ESetTilt d (clamp angle);
      EPrint (DError e)], Returns false).
Proof.
  intros Hc Hd He. run_script. rewrite Hc; cbn [fst snd app].
  rewrite Hd; cbn [fst snd app]. rewrite He; cbn [fst snd app]. reflexivity.
Qed.

(** The path on which every call succeeds does release both. *)
Lemma release_on_success actual angle :
  run (set_kinect_tilt (drv_ok actual) angle) =
    ([EPrint DInitializing; EInit; EOpenDevice 7%nat 0; EPrint DDetected;
      EPrint (DSetting (clamp angle)); ESetTilt 3%nat (clamp angle);
      EPrint DWaiting; ESleep 2; EGetTiltState 3%nat; EGetTiltDegs 1%nat;
      EPrint (DSuccess (clamp angle) actual); ECloseDevice 3%nat;
      EShutdown 7%nat], Returns true).
Proof. reflexivity. Qed.

(** C3, at a device whose tilt command fails after a successful open:
    [set_kinect_tilt] returns [False] and its trace ends with the error
    line; neither [close_device] nor [shutdown] is called, so the device
    handle and the context stay open. *)
Theorem tilt_failure_leaves_device_open (angle : Z) :
  let tr := fst (run (set_kinect_tilt drv_tilt_fails angle)) in
  snd (run (set_kinect_tilt drv_tilt_fails angle)) = Returns false /\
  In (EOpenDevice 7%nat 0) tr /\
  (forall d, ~ In (ECloseDevice d) tr) /\
  (forall c, ~ In (EShutdown c) tr).
Proof.
  rewrite (release_skipped_on_failure drv_tilt_fails angle 7%nat 3%nat
             "USB transfer failed" eq_refl eq_refl eq_refl).
  cbn [fst snd]. repeat split.
  - cbn [In]. auto.
  - intros d H. cbn [In] in H. intuition discriminate.
  - intros c H. cbn [In] in H. intuition discriminate.
Qed.

(** ** Further properties of the script *)

Ltac unit_values :=
  repeat match goal with
         | u : unit |- _ => destruct u
         end.

Lemma set_kinect_tilt_result_any_trace drv angle tr :
  snd (set_kinect_tilt drv angle tr) = snd (run (set_kinect_tilt drv angle)).
Proof.
  run_script. driver_cases; reflexivity.
Qed.

(** [set_kinect_tilt] returns [True] exactly when every call it makes
    returns, with a context from [init] and a device from [open_device]. *)
Theorem set_kinect_tilt_true_iff (drv : driver) (angle : Z) :
  snd (run (set_kinect_tilt drv angle)) = Returns true <-> all_calls_succeed drv angle.
Proof.
  split.
  - run_script.
    driver_cases; intros H; try discriminate H; unit_values;
      unfold all_calls_succeed;
      match goal with
      | Hc : init drv = Returns (Some ?c),
        Hd : open_device drv ?c 0 = Returns (Some ?d) |- _ => exists c, d
      end;
      repeat (split; [eassumption|]);
      (split; [first [left; eassumption
                     | right; do 2 eexists; split; eassumption]|]);
      split; eassumption.
  - intros (c & d & Hc & Hd & Ht & Hs & Hstate & Hclose & Hshut).
    run_script. rewrite Hc; cbn [fst snd app]. rewrite Hd; cbn [fst snd app].
    rewrite Ht; cbn [fst snd app]. rewrite Hs; cbn [fst snd app].
    destruct Hstate as [Hnone | (s & a & Hsome & Hdegs)].
    + rewrite Hnone; cbn [fst snd app]. rewrite Hclose; cbn [fst snd app].
      rewrite Hshut; reflexivity.
    + rewrite Hsome; cbn [fst snd app]. rewrite Hdegs; cbn [fst snd app].
      rewrite Hclose; cbn [fst snd app]. rewrite Hshut; reflexivity.
Qed.

Lemma set_kinect_tilt_true_iff_witness :
  snd (run (set_kinect_tilt (drv_ok 9) 10)) = Returns true /\
  ~ all_calls_succeed drv_tilt_fails 10.
Proof.
  split.
  - apply (set_kinect_tilt_true_iff (drv_ok 9) 10).
    exists 7%nat, 3%nat. repeat split; try reflexivity.
    right. exists 1%nat, 9. split; reflexivity.
  - intros H. apply (set_kinect_tilt_true_iff drv_tilt_fails 10) in H. discriminate H.
Defined.

(** When [set_kinect_tilt] returns [True], the last two things it did were
    closing the device it opened and shutting down the context it got. *)
Theorem success_ends_with_release (drv : driver) (angle : Z) :
  snd (run (set_kinect_tilt drv angle)) = Returns true ->
  exists c d tr,
    init drv = Returns (Some c) /\
    open_device drv c 0 = Returns (Some d) /\
    fst (run (set_kinect_tilt drv angle)) = tr ++ [ECloseDevice d; EShutdown c].
Proof.
  run_script.
  driver_cases; intros H; try discriminate H;
    match goal with
    | Hc : init drv = Returns (Some ?c),
      Hd : open_device drv ?c 0 = Returns (Some ?d) |- _ => exists c, d
    end;
    match goal with
    | |- exists tr, _ /\ _ /\ ?l = _ =>
      exists (removelast (removelast l));
      repeat split; first [reflexivity | eassumption]
    end.
Qed.

Lemma success_ends_with_release_witness :
  exists c d tr,
    init (drv_ok 12) = Returns (Some c) /\
    open_device (drv_ok 12) c 0 = Returns (Some d) /\
    fst (run (set_kinect_tilt (drv_ok 12) 15)) = tr ++ [ECloseDevice d; EShutdown c].
Proof.
  apply (success_ends_with_release (drv_ok 12) 15). reflexivity.
Defined.

(** Without a context ([init] returns [None] or raises) the script makes no
    other call into the driver and returns [False]. *)
Theorem no_context_no_further_call (drv : driver) (angle : Z) :
  (init drv = Returns None \/ exists e, init drv = Raises e) ->
  driver_calls (fst (run (set_kinect_tilt drv angle))) = [EInit] /\
  snd (run (set_kinect_tilt drv angle)) = Returns false.
Proof.
  intros [H | [e H]]; run_script; rewrite H; split; reflexivity.
Qed.

Lemma no_context_no_further_call_witness :
  let drv := {| init := Raises "no device";
                open_device := open_device (drv_ok 0);
                set_tilt_degs := set_tilt_degs (drv_ok 0);
                sleep := sleep (drv_ok 0);
                get_tilt_state := get_tilt_state (drv_ok 0);
                get_tilt_degs := get_tilt_degs (drv_ok 0);
                close_device := close_device (drv_ok 0);
                shutdown := shutdown (drv_ok 0) |} in
  driver_calls (fst (run (set_kinect_tilt drv 5))) = [EInit] /\
  snd (run (set_kinect_tilt drv 5)) = Returns false.
Proof.
  intros drv. apply (no_context_no_further_call drv 5).
  right. exists "no device"%string. reflexivity.
Defined.

(** When [open_device] returns [None], the context is shut down before the
    script returns [False], and no tilt command is sent. *)
Theorem no_device_releases_context (drv : driver) (angle : Z) (c : ctx) :
  init drv = Returns (Some c) ->
  open_device drv c 0 = Returns None ->
  driver_calls (fst (run (set_kinect_tilt drv angle))) =
    [EInit; EOpenDevice c 0; EShutdown c] /\
  snd (run (set_kinect_tilt drv angle)) = Returns false.
Proof.
  intros Hc Hd. run_script. rewrite Hc; cbn [fst snd app]. rewrite Hd; cbn [fst snd app].
  destruct (shutdown drv c); split; reflexivity.
Qed.

Lemma no_device_releases_context_witness :
  let drv := {| init := init (drv_ok 0);
                open_device := fun _ _ => Returns None;
                set_tilt_degs := set_tilt_degs (drv_ok 0);
                sleep := sleep (drv_ok 0);
                get_tilt_state := get_tilt_state (drv_ok 0);
                get_tilt_degs := get_tilt_degs (drv_ok 0);
                close_device := close_device (drv_ok 0);
                shutdown := shutdown (drv_ok 0) |} in
  driver_calls (fst (run (set_kinect_tilt drv 5))) =
    [EInit; EOpenDevice 7%nat 0; EShutdown 7%nat] /\
  snd (run (set_kinect_tilt drv 5)) = Returns false.
Proof.
  intros drv. apply (no_device_releases_context drv 5 7%nat); reflexivity.
Defined.

(** When [open_device] raises, the script returns [False] after the failed
    call: the context [init] returned is not shut down. *)
Theorem raising_open_skips_shutdown (drv : driver) (angle : Z) (c : ctx) (e : exn) :
  init drv = Returns (Some c) ->
  open_device drv c 0 = Raises e ->
  driver_calls (fst (run (set_kinect_tilt drv angle))) = [EInit; EOpenDevice c 0] /\
  snd (run (set_kinect_tilt drv angle)) = Returns false.
Proof.
  intros Hc Hd. run_script. rewrite Hc; cbn [fst snd app]. rewrite Hd. split; reflexivity.
Qed.

Lemma raising_open_skips_shutdown_witness :
  let drv := {| init := init (drv_ok 0);
                open_device := fun _ _ => Raises "busy";
                set_tilt_degs := set_tilt_degs (drv_ok 0);
                sleep := sleep (drv_ok 0);
                get_tilt_state := get_tilt_state (drv_ok 0);
                get_tilt_degs := get_tilt_degs (drv_ok 0);
                close_device := close_device (drv_ok 0);
                shutdown := shutdown (drv_ok 0) |} in
  driver_calls (fst (run (set_kinect_tilt drv 5))) = [EInit; EOpenDevice 7%nat 0] /\
  snd (run (set_kinect_tilt drv 5)) = Returns false.
Proof.
  intros drv. apply (raising_open_skips_shutdown drv 5 7%nat "busy"); reflexivity.
Defined.

(** Every handle the script passes to the driver is one the driver gave it:
    the context comes from [init], the device from [open_device] at index 0,
    the tilt state from [get_tilt_state]. *)
Theorem handles_come_from_driver (drv : driver) (angle : Z) (ev : event) :
  In ev (fst (run (set_kinect_tilt drv angle))) -> from_driver drv ev.
Proof.
  run_script.
  driver_cases; cbn [In]; intros H;
    repeat (destruct H as [H|H]; [subst ev; cbn [from_driver]; eauto 10|]);
    destruct H.
Qed.

Lemma handles_come_from_driver_witness : from_driver (drv_ok 3) (ECloseDevice 3%nat).
Proof.
  apply (handles_come_from_driver (drv_ok 3) 20). cbn. auto 20.
Defined.

(** The tilt command is sent at most once per run (the read-back is never
    used to send a correction), and exactly once when the device was opened. *)
Theorem one_tilt_command_at_most (drv : driver) (angle : Z) :
  (tilt_commands (fst (run (set_kinect_tilt drv angle))) <= 1)%nat /\
  (tilt_commands (fst (run (set_kinect_tilt drv angle))) = 1%nat <->
   exists c d, init drv = Returns (Some c) /\ open_device drv c 0 = Returns (Some d)).
Proof.
  run_script. unfold tilt_commands.
  driver_cases; cbn [List.filter is_set_tilt length]; split; try lia;
    (split; [intros H; try discriminate H; eauto
            | intros (c' & d' & Hc' & Hd'); try reflexivity; congruence]).
Qed.

Lemma one_tilt_command_at_most_witness :
  tilt_commands (fst (run (set_kinect_tilt drv_tilt_fails 45))) = 1%nat.
Proof.
  apply (one_tilt_command_at_most drv_tilt_fails 45).
  exists 7%nat, 3%nat. split; reflexivity.
Defined.

Lemma set_kinect_tilt_clamped_argument drv angle tr :
  set_kinect_tilt drv (clamp angle) tr = set_kinect_tilt drv angle tr.
Proof. unfold set_kinect_tilt. rewrite clamp_idempotent. reflexivity. Qed.

Lemma driver_calls_app tr1 tr2 :
  driver_calls (tr1 ++ tr2) = driver_calls tr1 ++ driver_calls tr2.
Proof. apply List.filter_app. Qed.

Lemma set_kinect_tilt_calls_any_trace drv angle tr :
  driver_calls (fst (set_kinect_tilt drv angle tr)) =
    driver_calls tr ++ driver_calls (fst (run (set_kinect_tilt drv angle))).
Proof.
  run_script.
  driver_cases; rewrite ?driver_calls_app; cbn [driver_calls List.filter is_driver_call app];
    rewrite ?app_nil_r, <- ?app_assoc; reflexivity.
Qed.

(** With a command line that is not one integer argument, [main] exits with
    code 1 without calling the driver. *)
Theorem bad_command_line_exits_1 (drv : driver) (int_of_arg : string -> option Z)
    (argv : list string) :
  (length argv <> 2%nat \/
   exists prog arg, argv = [prog; arg] /\ int_of_arg arg = None) ->
  driver_calls (fst (run (main drv int_of_arg argv))) = [] /\
  snd (run (main drv int_of_arg argv)) = Returns 1.
Proof.
  intros [Hlen | (prog & arg & -> & Harg)].
  - destruct argv as [|a [|b [|c l]]]; cbn [length] in Hlen;
      try (split; reflexivity). contradiction Hlen. reflexivity.
  - unfold run, main. rewrite Harg. split; reflexivity.
Qed.

Lemma bad_command_line_exits_1_witness :
  snd (run (main (drv_ok 0) (fun _ => None) ["kinect_tilt.py"; "up"]%string)) = Returns 1 /\
  snd (run (main (drv_ok 0) (fun _ => Some 5) ["kinect_tilt.py"]%string)) = Returns 1.
Proof.
  split.
  - apply (bad_command_line_exits_1 (drv_ok 0) (fun _ => None)).
    right. exists "kinect_tilt.py"%string, "up"%string. split; reflexivity.
  - apply (bad_command_line_exits_1 (drv_ok 0) (fun _ => Some 5)).
    left. cbn. lia.
Defined.

(** With an integer argument, [main] makes exactly the driver calls of
    [set_kinect_tilt] on that angle (clamping first changes nothing) and
    exits with 0 when it returned [True], with 1 when it returned [False]. *)
Theorem main_exit_code (drv : driver) (int_of_arg : string -> option Z)
    (prog arg : string) (angle : Z) :
  int_of_arg arg = Some angle ->
  driver_calls (fst (run (main drv int_of_arg [prog; arg]))) =
    driver_calls (fst (run (set_kinect_tilt drv angle))) /\
  exists b,
    snd (run (set_kinect_tilt drv angle)) = Returns b /\
    snd (run (main drv int_of_arg [prog; arg])) = Returns (if b then 0 else 1).
Proof.
  intros Harg.
  assert (Htail : forall a tr,
            a = angle \/ a = clamp angle ->
            exists b tr' d,
              set_kinect_tilt drv angle tr = (tr', Returns b) /\
              (let* success := set_kinect_tilt drv a in
               if success : bool then print DDone ;;; ret 0
               else print DFailed ;;; ret 1) tr =
                (tr' ++ [EPrint d], Returns (if b then 0 else 1))).
  { intros a tr Ha.
    assert (Hsame : set_kinect_tilt drv a tr = set_kinect_tilt drv angle tr).
    { destruct Ha as [-> | ->]; [reflexivity | apply set_kinect_tilt_clamped_argument]. }
    assert (Hret : exists b, snd (set_kinect_tilt drv angle tr) = Returns b)
      by (clear; run_script; driver_cases; eauto).
    destruct Hret as [b Hb].
    unfold bind. rewrite Hsame.
    destruct (set_kinect_tilt drv angle tr) as [tr' r]. cbn [snd] in Hb. subst r.
    exists b, tr'. destruct b; eexists; split; reflexivity. }
  assert (Hgoal : forall a tr,
            a = angle \/ a = clamp angle -> driver_calls tr = [] ->
            driver_calls
              (fst ((let* success := set_kinect_tilt drv a in
                     if success : bool then print DDone ;;; ret 0
                     else print DFailed ;;; ret 1) tr)) =
              driver_calls (fst (run (set_kinect_tilt drv angle))) /\
            exists b,
              snd (run (set_kinect_tilt drv angle)) = Returns b /\
              snd ((let* success := set_kinect_tilt drv a in
                    if success : bool then print DDone ;;; ret 0
                    else print DFailed ;;; ret 1) tr) =
                Returns (if b then 0 else 1)).
  { intros a tr Ha Htr. destruct (Htail a tr Ha) as (b & tr' & d & Hrun & ->).
    pose proof (set_kinect_tilt_calls_any_trace drv angle tr) as Hcalls.
    pose proof (set_kinect_tilt_result_any_trace drv angle tr) as Hres.
    rewrite Hrun in Hcalls, Hres. cbn [fst snd] in *.
    rewrite Htr in Hcalls. cbn [app] in Hcalls. split.
    - rewrite driver_calls_app, Hcalls. cbn. apply app_nil_r.
    - exists b. split; [symmetry; exact Hres | reflexivity]. }
  unfold run at 1 3, main. rewrite Harg. unfold bind at 1. unfold bind at 3.
  destruct ((angle <? -30) || (angle >? 30)).
  - unfold print at 1 2 5 6, bind at 1 2 3 5 6 7, modify, ret at 1 4. cbn [app fst snd].
    apply Hgoal; [right; reflexivity | reflexivity].
  - unfold ret at 1 4. apply Hgoal; [left; reflexivity | reflexivity].
Qed.

Lemma main_exit_code_witness :
  snd (run (main (drv_ok 28) (fun _ => Some 45) ["kinect_tilt.py"; "45"]%string)) = Returns 0.
Proof.
  destruct (main_exit_code (drv_ok 28) (fun _ => Some 45) "kinect_tilt.py" "45" 45 eq_refl)
    as (_ & b & Hb & Hmain).
  rewrite Hmain. cbn in Hb. inversion Hb. reflexivity.
Defined.

End TiltFacts.

(* ===================================================================== *)
(** * Properties of the server *)
(* ===================================================================== *)

Module ServerFacts.
Import Server.

(** ** Loops whose body leaves the state alone *)

Lemma for_each_pure {St E A B} (xs : list A) (f : A -> M St E B) (g : A -> B) (s : St) :
  (forall x, In x xs -> f x s = (s, Returns (g x))) ->
  for_each xs f s = (s, Returns (map g xs)).
Proof.
  induction xs as [|x xs IH]; intros Hf; cbn [for_each map].
  - reflexivity.
  - unfold bind at 1. rewrite (Hf x) by (left; reflexivity).
    unfold bind at 1. rewrite IH by (intros y Hy; apply Hf; right; exact Hy).
    reflexivity.
Qed.

Lemma py_range_length n : length (py_range n) = Z.to_nat n.
Proof. unfold py_range. rewrite length_map, length_seq. reflexivity. Qed.


(** ** Loops, conversions and their failures *)

Lemma for_each_cons {St E A B} (x : A) (xs : list A) (f : A -> M St E B) (s : St) :
  for_each (x :: xs) f s =
    match f x s with
    | (s', Returns y) =>
      match for_each xs f s' with
      | (s'', Returns ys) => (s'', Returns (y :: ys))
      | (s'', Raises e) => (s'', Raises e)
      end
    | (s', Raises e) => (s', Raises e)
    end.
Proof.
  cbn [for_each]. unfold bind at 1. destruct (f x s) as [s' [y|e]]; [|reflexivity].
  unfold bind at 1. destruct (for_each xs f s') as [s'' [ys|e]]; reflexivity.
Qed.

Lemma py_range_first n : 0 < n -> exists rest, py_range n = 0 :: rest.
Proof.
  intros Hn. unfold py_range. destruct (Z.to_nat n) as [|k] eqn:Hk; [lia|].
  cbn [seq map]. eauto.
Qed.

Lemma float_ok_not_overflows t : float_ok t <-> float_overflows t = false.
Proof. unfold float_ok, float_overflows. rewrite Z.leb_gt. reflexivity. Qed.


Lemma cell_in_range depth gw gh t gx gy :
  float_ok t -> cell depth gw gh t gx gy = Returns (cell_value depth gw gh t gx gy).
Proof.
  intros Ht. apply float_ok_not_overflows in Ht.
  unfold cell, is_shadow, cell_value. rewrite Ht. reflexivity.
Qed.

Lemma cell_overflow depth gw gh t gx gy :
  ~ float_ok t -> cell depth gw gh t gx gy = Raises OverflowError.
Proof.
  intros Ht. unfold cell, is_shadow.
  destruct (float_overflows t) eqn:Hov; [reflexivity|].
  apply float_ok_not_overflows in Hov. contradiction.
Qed.



(** ** What [get_shadow_mask] returns *)

Lemma reduction_frame depth w gw gh :
  py_index (grid_width (self w)) = Returns gw ->
  py_index (grid_height (self w)) = Returns gh ->
  float_ok (depth_threshold (self w)) ->
  reduction (Returns depth) w =
    (w, Returns (grid_of depth gw gh (depth_threshold (self w)))).
Proof.
  intros Hw Hh Ht. unfold reduction.
  unfold bind at 1, lift at 1. unfold bind at 1, read at 1, bind at 1, get, ret at 1.
  rewrite Hh. unfold bind at 1, lift at 1.
  rewrite (for_each_pure _ _
             (fun gy => map (fun gx => cell_value depth gw gh (depth_threshold (self w)) gx gy)
                            (py_range gw))).
  - reflexivity.
  - intros gy _. unfold bind at 1, read at 1, bind at 1, get, ret at 1.
    rewrite Hw. unfold bind at 1, lift at 1.
    apply for_each_pure. intros gx _.
    unfold bind at 1, read at 1, bind at 1, get, ret at 1.
    rewrite (cell_in_range _ _ _ _ _ _ Ht). reflexivity.
Qed.






Lemma get_shadow_mask_frame depth w gw gh :
  py_index (grid_width (self w)) = Returns gw ->
  py_index (grid_height (self w)) = Returns gh ->
  float_ok (depth_threshold (self w)) ->
  get_shadow_mask (Returns depth) w =
    (w, Returns (grid_of depth gw gh (depth_threshold (self w)))).
Proof.
  intros Hw Hh Ht. unfold get_shadow_mask, try_except.
  rewrite (reduction_frame depth w gw gh Hw Hh Ht). reflexivity.
Qed.



Lemma grid_of_rows depth gw gh t : length (grid_of depth gw gh t) = Z.to_nat gh.
Proof. unfold grid_of. rewrite length_map. apply py_range_length. Qed.

Lemma grid_of_columns depth gw gh t :
  Forall (fun row => length row = Z.to_nat gw) (grid_of depth gw gh t).
Proof.
  unfold grid_of. apply List.Forall_forall. intros row Hrow.
  apply in_map_iff in Hrow. destruct Hrow as (gy & <- & _).
  rewrite length_map. apply py_range_length.
Qed.


Lemma grid_of_at depth gw gh t gx gy :
  0 <= gx < gw -> 0 <= gy < gh ->
  mask_at (grid_of depth gw gh t) gx gy = Some (cell_value depth gw gh t gx gy).
Proof.
  intros Hx Hy. unfold mask_at, grid_of, py_range.
  rewrite !nth_error_map.
  rewrite (nth_error_nth' _ 0%nat) by (rewrite length_seq; lia).
  rewrite seq_nth by lia. cbn [option_map].
  rewrite !nth_error_map.
  rewrite (nth_error_nth' _ 0%nat) by (rewrite length_seq; lia).
  rewrite seq_nth by lia. cbn [option_map].
  rewrite !Nat.add_0_l, !Z2Nat.id by lia. reflexivity.
Qed.

(** ** Slices and cell bounds *)

Lemma int_div_nonneg a b : 0 <= a -> 0 < b -> int_div a b = a / b.
Proof. intros Ha Hb. unfold int_div. apply Z.quot_div_nonneg; assumption. Qed.

Lemma cell_bounds_inside extent cells g :
  0 <= extent -> 0 <= g < cells ->
  0 <= fst (cell_bounds extent cells g) <= snd (cell_bounds extent cells g) /\
  snd (cell_bounds extent cells g) <= extent.
Proof.
  intros He Hg. unfold cell_bounds. cbn [fst snd].
  rewrite !int_div_nonneg by nia.
  repeat split.
  - apply Z.div_pos; nia.
  - apply Z.div_le_mono; nia.
  - apply Z.div_le_upper_bound; nia.
Qed.

Lemma cell_bounds_wide extent cells g :
  0 <= g < cells -> cells <= extent ->
  fst (cell_bounds extent cells g) + 1 <= snd (cell_bounds extent cells g).
Proof.
  intros Hg He. unfold cell_bounds. cbn [fst snd].
  rewrite !int_div_nonneg by nia.
  replace (g * extent / cells + 1) with ((g * extent + 1 * cells) / cells)
    by (rewrite Z.div_add by lia; reflexivity).
  apply Z.div_le_mono; nia.
Qed.

Lemma cell_bounds_same n g : 0 <= g < n -> cell_bounds n n g = (g, g + 1).
Proof.
  intros Hg. unfold cell_bounds, int_div.
  rewrite !Z.quot_mul by lia. reflexivity.
Qed.

Lemma py_slice_inside {A} (a b : Z) (l : list A) :
  0 <= a <= b -> b <= Z.of_nat (length l) ->
  py_slice a b l = firstn (Z.to_nat (b - a)) (skipn (Z.to_nat a) l).
Proof.
  intros Hab Hb. unfold py_slice, norm_index.
  destruct (Z.ltb_spec a 0); [lia|]. destruct (Z.ltb_spec b 0); [lia|].
  rewrite !Z.min_l by lia. reflexivity.
Qed.

Lemma py_slice_length {A} (a b : Z) (l : list A) :
  0 <= a <= b -> b <= Z.of_nat (length l) ->
  Z.of_nat (length (py_slice a b l)) = b - a.
Proof.
  intros Hab Hb. rewrite py_slice_inside by assumption.
  rewrite length_firstn, length_skipn. lia.
Qed.

Lemma py_slice_keeps {A} (P : A -> Prop) (a b : Z) (l : list A) :
  List.Forall P l -> List.Forall P (py_slice a b l).
Proof.
  intros H. unfold py_slice. apply Forall_take, Forall_drop. exact H.
Qed.

Lemma skipn_cons_nth {A} (d : A) (l : list A) (n : nat) :
  (n < length l)%nat -> skipn n l = nth n l d :: skipn (Datatypes.S n) l.
Proof.
  revert n. induction l as [|x l IH]; intros n Hn; cbn [length] in Hn.
  - lia.
  - destruct n as [|n]; [reflexivity|]. cbn [skipn nth]. apply IH. lia.
Qed.

Lemma py_slice_one {A} (d : A) (i : Z) (l : list A) :
  0 <= i < Z.of_nat (length l) ->
  py_slice i (i + 1) l = [nth (Z.to_nat i) l d].
Proof.
  intros Hi. rewrite py_slice_inside by lia.
  replace (Z.to_nat (i + 1 - i)) with 1%nat by lia.
  rewrite (skipn_cons_nth d) by lia. reflexivity.
Qed.

(** ** Means and the test *)

Lemma Qltb_lt x y : Qltb x y = true <-> (x < y)%Q.
Proof. unfold Qltb, Qlt. apply Z.ltb_lt. Qed.

Lemma strictly_inside_spec avg t :
  strictly_inside avg t = true <->
  exists m, avg = Some m /\ (inject_Z 400 < m)%Q /\ (m < inject_Z t)%Q.
Proof.
  unfold strictly_inside. destruct avg as [m|].
  - rewrite andb_true_iff, !Qltb_lt. split.
    + intros [Ht H400]. exists m. auto.
    + intros (m' & Hm & H400 & Ht). inversion Hm; subst. auto.
  - split; [discriminate|]. intros (m & Hm & _). discriminate.
Qed.

Lemma np_mean_defined (region : list (list Z)) :
  region <> [] -> List.Forall (fun row => row <> []) region ->
  exists m, np_mean region = Some m.
Proof.
  intros Hne Hrows. unfold np_mean.
  destruct region as [|row region]; [congruence|].
  inversion Hrows as [|? ? Hrow _]; subst.
  destruct row as [|v row]; [congruence|]. cbn [concat app]. eauto.
Qed.

Lemma np_mean_one v : np_mean [[v]] = Some (inject_Z v).
Proof. unfold np_mean. cbn. rewrite Z.add_0_r. reflexivity. Qed.

Lemma strictly_inside_one v t : strictly_inside (Some (inject_Z v)) t = pixel_shadow t v.
Proof.
  unfold strictly_inside, pixel_shadow, Qltb, inject_Z. cbn [Qnum Qden].
  rewrite !Z.mul_1_r. reflexivity.
Qed.

Lemma map_indices {A B} (d : A) (l : list A) (f : Z -> B) (g : A -> B) (n : Z) :
  Z.of_nat (length l) = n ->
  (forall i, 0 <= i < n -> f i = g (nth (Z.to_nat i) l d)) ->
  map f (py_range n) = map g l.
Proof.
  intros Hn Hf. unfold py_range. rewrite <- Hn, Nat2Z.id, map_map.
  assert (H : forall k, (forall i, (i < length l)%nat ->
                           f (Z.of_nat (k + i)) = g (nth i l d)) ->
                        map (fun x => f (Z.of_nat x)) (seq k (length l)) = map g l).
  { clear. induction l as [|x l IH]; intros k H; cbn [length seq map].
    - reflexivity.
    - f_equal.
      + specialize (H 0%nat). rewrite Nat.add_0_r in H. apply H. cbn. lia.
      + apply IH. intros i Hi. specialize (H (Datatypes.S i)).
        rewrite Nat.add_succ_r in H. apply H. cbn. lia. }
  apply H. intros i Hi. rewrite Nat.add_0_l, Hf by lia.
  rewrite Nat2Z.id. reflexivity.
Qed.

Lemma well_formed_row depth gy :
  well_formed depth -> 0 <= gy < fst (shape depth) ->
  Z.of_nat (length (nth (Z.to_nat gy) (samples depth) [])) = snd (shape depth).
Proof.
  intros [Hh Hw] Hgy. rewrite List.Forall_forall in Hw. apply Hw.
  apply nth_In. lia.
Qed.

Lemma cell_full_resolution depth t gx gy :
  well_formed depth ->
  0 <= gx < snd (shape depth) -> 0 <= gy < fst (shape depth) ->
  cell_value depth (snd (shape depth)) (fst (shape depth)) t gx gy =
    pixel_shadow t (nth (Z.to_nat gx) (nth (Z.to_nat gy) (samples depth) []) 0).
Proof.
  intros Hwf Hx Hy. pose proof (well_formed_row depth gy Hwf Hy) as Hrow.
  destruct Hwf as [Hh _].
  unfold cell_value, source_region. destruct (shape depth) as [H W]. cbn [fst snd] in *.
  rewrite !cell_bounds_same by assumption. unfold region_of.
  rewrite (py_slice_one []) by lia. cbn [map].
  rewrite (py_slice_one 0) by lia.
  rewrite np_mean_one. apply strictly_inside_one.
Qed.

Lemma grid_of_full_resolution depth t :
  well_formed depth ->
  grid_of depth (snd (shape depth)) (fst (shape depth)) t =
    map (map (pixel_shadow t)) (samples depth).
Proof.
  intros Hwf. unfold grid_of.
  apply (map_indices []); [apply Hwf|]. intros gy Hy.
  apply (map_indices 0); [apply well_formed_row; assumption|]. intros gx Hx.
  apply cell_full_resolution; assumption.
Qed.

(** ** The claims about the grid reducer *)

(** C2, as amended. When the grid is no finer than the frame
    (1 <= grid_width <= W and 1 <= grid_height <= H), the source region of
    every cell is at least one sample wide and one sample high, lies inside
    the frame, and its mean is a number. *)
Theorem region_nonempty_when_grid_fits (depth : ndarray) (gw gh gx gy : Z) :
  well_formed depth ->
  1 <= gw <= snd (shape depth) ->
  1 <= gh <= fst (shape depth) ->
  0 <= gx < gw -> 0 <= gy < gh ->
  1 <= fst (region_extent depth gw gh gx gy) /\
  1 <= snd (region_extent depth gw gh gx gy) /\
  Z.of_nat (length (source_region depth gw gh gx gy)) =
    snd (region_extent depth gw gh gx gy) /\
  List.Forall (fun row => Z.of_nat (length row) = fst (region_extent depth gw gh gx gy))
              (source_region depth gw gh gx gy) /\
  exists m, np_mean (source_region depth gw gh gx gy) = Some m.
Proof.
  intros [Hh Hw] Hgw Hgh Hx Hy.
  unfold region_extent, source_region.
  destruct (shape depth) as [H W]. cbn [fst snd] in *.
  pose proof (cell_bounds_inside W gw gx ltac:(lia) Hx) as [Hx1 Hx2].
  pose proof (cell_bounds_inside H gh gy ltac:(lia) Hy) as [Hy1 Hy2].
  pose proof (cell_bounds_wide W gw gx Hx ltac:(lia)) as Hxw.
  pose proof (cell_bounds_wide H gh gy Hy ltac:(lia)) as Hyw.
  destruct (cell_bounds W gw gx) as [dx1 dx2].
  destruct (cell_bounds H gh gy) as [dy1 dy2]. cbn [fst snd] in *.
  assert (Hrows : Z.of_nat (length (region_of depth dy1 dy2 dx1 dx2)) = dy2 - dy1).
  { unfold region_of. rewrite length_map. apply py_slice_length; lia. }
  assert (Hcols : List.Forall (fun row => Z.of_nat (length row) = dx2 - dx1)
                              (region_of depth dy1 dy2 dx1 dx2)).
  { unfold region_of. apply Forall_map.
    eapply Forall_impl; [apply py_slice_keeps; exact Hw|].
    cbn beta. intros row Hrow. apply py_slice_length; lia. }
  repeat split; try lia; try assumption.
  apply np_mean_defined.
  - intros Hnil. rewrite Hnil in Hrows. cbn in Hrows. lia.
  - eapply Forall_impl; [exact Hcols|]. cbn beta. intros row Hrow Hnil.
    rewrite Hnil in Hrow. cbn in Hrow. lia.
Qed.

Lemma region_nonempty_when_grid_fits_witness :
  1 <= fst (region_extent small_frame 2 1 1 0) /\
  exists m, np_mean (source_region small_frame 2 1 1 0) = Some m.
Proof.
  assert (Hwf : well_formed small_frame).
  { split; [reflexivity|]. repeat constructor. }
  destruct (region_nonempty_when_grid_fits small_frame 2 1 1 0 Hwf)
    as (Hwide & _ & _ & _ & Hmean); cbn; try lia.
  split; [exact Hwide | exact Hmean].
Defined.

(** C2, as stated, fails: on a frame two samples wide reduced to four
    columns, the first cell has bounds [dx1 = dx2 = 0]; its region holds no
    sample, its mean is [nan], and the cell is [False]. *)
Lemma region_empty_when_grid_is_finer :
  let depth := {| shape := (1, 2); samples := [[500; 700]] |} in
  well_formed depth /\
  cell_bounds 2 4 0 = (0, 0) /\
  fst (region_extent depth 4 1 0 0) = 0 /\
  ~ 1 <= fst (region_extent depth 4 1 0 0) /\
  source_region depth 4 1 0 0 = [[]] /\
  np_mean (source_region depth 4 1 0 0) = None /\
  cell depth 4 1 1200 0 0 = Returns false.
Proof.
  cbn zeta. split; [split; [reflexivity | repeat constructor]|].
  split; [reflexivity|]. split; [reflexivity|].
  split; [intros H; vm_compute in H; exact (H eq_refl)|].
  repeat split; reflexivity.
Qed.

(** ** What a computation leaves unchanged *)

Section Preserves.
Context {St E : Type} (R : St -> St -> Prop).
Hypothesis R_refl : forall s, R s s.
Hypothesis R_trans : forall s1 s2 s3, R s1 s2 -> R s2 s3 -> R s1 s3.

Lemma preserves_ret {A} (a : A) : preserves R (ret (E := E) a).
Proof. intros s. apply R_refl. Qed.

Lemma preserves_raise {A} (e : E) : preserves R (raise (A := A) e).
Proof. intros s. apply R_refl. Qed.

Lemma preserves_lift {A} (o : outcome E A) : preserves R (lift o).
Proof. intros s. apply R_refl. Qed.

Lemma preserves_get : preserves R (get (E := E)).
Proof. intros s. apply R_refl. Qed.

Lemma preserves_modify (f : St -> St) : (forall s, R s (f s)) -> preserves R (modify (E := E) f).
Proof. intros Hf s. apply Hf. Qed.

Lemma preserves_bind {A B} (m : M St E A) (k : A -> M St E B) :
  preserves R m -> (forall a, preserves R (k a)) -> preserves R (bind m k).
Proof.
  intros Hm Hk s. unfold bind. specialize (Hm s).
  destruct (m s) as [s' [a|e]]; cbn [fst] in *.
  - eapply R_trans; [exact Hm | apply Hk].
  - exact Hm.
Qed.

Lemma preserves_try_except {A} (body : M St E A) catches handler :
  preserves R body -> (forall e, preserves R (handler e)) ->
  preserves R (try_except body catches handler).
Proof.
  intros Hb Hh s. unfold try_except. specialize (Hb s).
  destruct (body s) as [s' [a|e]]; cbn [fst] in *; [exact Hb|].
  destruct (catches e); [|exact Hb].
  eapply R_trans; [exact Hb | apply Hh].
Qed.

Lemma preserves_try_finally {A} (body : M St E A) cleanup :
  preserves R body -> preserves R cleanup -> preserves R (try_finally body cleanup).
Proof.
  intros Hb Hc s. unfold try_finally. specialize (Hb s).
  destruct (body s) as [s' o]; cbn [fst] in *. specialize (Hc s').
  destruct (cleanup s') as [s'' [u|e]]; cbn [fst] in *;
    eapply R_trans; eauto.
Qed.

Lemma preserves_for_each {A B} (xs : list A) (f : A -> M St E B) :
  (forall x, preserves R (f x)) -> preserves R (for_each xs f).
Proof.
  intros Hf. induction xs as [|x xs IH]; cbn [for_each].
  - apply preserves_ret.
  - apply preserves_bind; [apply Hf|]. intros y.
    apply preserves_bind; [exact IH|]. intros ys. apply preserves_ret.
Qed.
End Preserves.

(** Proves [preserves R m] by following the structure of [m]; what is left
    are the state updates. *)
Ltac preserve R_refl R_trans :=
  repeat first
    [ apply (preserves_ret _ R_refl)
    | apply (preserves_raise _ R_refl)
    | apply (preserves_lift _ R_refl)
    | apply (preserves_get _ R_refl)
    | apply (preserves_bind _ R_trans)
    | apply (preserves_try_except _ R_trans)
    | apply (preserves_try_finally _ R_trans)
    | apply (preserves_for_each _ R_refl R_trans)
    | apply preserves_modify
    | match goal with
      | |- forall _, _ => intro
      | |- preserves _ (if ?b then _ else _) => destruct b
      | |- preserves _ (match ?o with Some _ => _ | None => _ end) => destruct o
      end ].

Lemma only_printed_refl w : only_printed w w.
Proof. split; reflexivity. Qed.

Lemma only_printed_trans w1 w2 w3 :
  only_printed w1 w2 -> only_printed w2 w3 -> only_printed w1 w3.
Proof. intros [H1 H2] [H3 H4]. split; congruence. Qed.

Lemma get_shadow_mask_only_prints sensor : preserves only_printed (get_shadow_mask sensor).
Proof.
  unfold get_shadow_mask, reduction, fallback, read, print.
  preserve only_printed_refl only_printed_trans.
  split; reflexivity.
Qed.

Lemma unchanged_refl w : unchanged w w.
Proof. reflexivity. Qed.

Lemma unchanged_trans w1 w2 w3 : unchanged w1 w2 -> unchanged w2 w3 -> unchanged w1 w3.
Proof. unfold unchanged. congruence. Qed.

(** The [try] block only reads. *)
Lemma reduction_readonly sensor : preserves unchanged (reduction sensor).
Proof. unfold reduction, read. preserve unchanged_refl unchanged_trans. Qed.

Lemma reduction_state sensor w w1 o : reduction sensor w = (w1, o) -> w1 = w.
Proof.
  intros H. pose proof (reduction_readonly sensor w) as Hr. rewrite H in Hr. exact Hr.
Qed.

Lemma for_each_readonly_Forall {A B} (P : B -> Prop) (f : A -> S B) (xs : list A)
    (w : world) :
  (forall x, preserves unchanged (f x)) ->
  (forall x y, f x w = (w, Returns y) -> P y) ->
  forall w1 ys, for_each xs f w = (w1, Returns ys) ->
                length ys = length xs /\ List.Forall P ys.
Proof.
  intros Hro Hf. induction xs as [|x xs IH]; intros w1 ys Hrun.
  - cbn in Hrun. inversion Hrun. split; [reflexivity | constructor].
  - rewrite for_each_cons in Hrun.
    pose proof (Hro x w) as Hx. unfold unchanged in Hx.
    destruct (f x w) as [s1 [y|e]] eqn:Hfx; [|discriminate]. cbn [fst] in Hx. subst s1.
    destruct (for_each xs f w) as [s2 [ys'|e]] eqn:Hxs; [|discriminate].
    inversion Hrun; subst. destruct (IH _ _ eq_refl) as [Hlen Hall].
    split; [cbn; congruence | constructor; [apply (Hf x); exact Hfx | exact Hall]].
Qed.

(** Whatever grid the [try] block returns has the configured shape. *)
Lemma reduction_shape sensor w w1 mask gw gh :
  py_index (grid_width (self w)) = Returns gw ->
  py_index (grid_height (self w)) = Returns gh ->
  reduction sensor w = (w1, Returns mask) ->
  length mask = Z.to_nat gh /\
  List.Forall (fun row => length row = Z.to_nat gw) mask.
Proof.
  intros Hw Hh. unfold reduction. destruct sensor as [depth|e].
  - unfold bind at 1, lift at 1. unfold bind at 1, read at 1, bind at 1, get, ret at 1.
    rewrite Hh. unfold bind at 1, lift at 1. intros Hrun.
    apply (for_each_readonly_Forall (fun row => length row = Z.to_nat gw)) in Hrun.
    + rewrite py_range_length in Hrun. exact Hrun.
    + intros gy. unfold read. preserve unchanged_refl unchanged_trans.
    + intros gy row. unfold bind at 1, read at 1, bind at 1, get, ret at 1.
      rewrite Hw. unfold bind at 1, lift at 1. intros Hrow.
      apply (for_each_readonly_Forall (fun _ => True)) in Hrow.
      * rewrite py_range_length in Hrow. apply Hrow.
      * intros gx. unfold read. preserve unchanged_refl unchanged_trans.
      * intros; exact I.
  - unfold bind at 1, lift at 1. discriminate.
Qed.

(** Whatever grid the [except] clause returns is all [False] and has the
    configured shape. *)
Lemma fallback_shape e w w1 mask gw gh :
  py_index (grid_width (self w)) = Returns gw ->
  py_index (grid_height (self w)) = Returns gh ->
  fallback e w = (w1, Returns mask) ->
  w1 = printed (DDepthError e) w /\
  length mask = Z.to_nat gh /\
  List.Forall (fun row => row = repeat false (Z.to_nat gw)) mask.
Proof.
  intros Hw Hh. unfold fallback.
  unfold bind at 1, print, modify.
  unfold bind at 1, read at 1, bind at 1, get, ret at 1. cbn [self printed].
  rewrite Hh. unfold bind at 1, lift at 1. intros Hrun.
  match type of Hrun with for_each _ ?f _ = _ => set (body := f) in * end.
  assert (Hro : forall x : Z, preserves unchanged (body x)).
  { intros x. subst body. cbn beta. unfold read.
    preserve unchanged_refl unchanged_trans. }
  pose proof (preserves_for_each unchanged unchanged_refl unchanged_trans
                (py_range gh) body Hro (printed (DDepthError e) w)) as Hst.
  rewrite Hrun in Hst. unfold unchanged in Hst. cbn [fst] in Hst.
  split; [exact Hst|]. subst w1.
  apply (for_each_readonly_Forall (fun row => row = repeat false (Z.to_nat gw))) in Hrun.
  - rewrite py_range_length in Hrun. exact Hrun.
  - exact Hro.
  - intros x row. subst body. cbn beta.
    unfold bind at 1, read at 1, bind at 1, get, ret at 1.
    cbn [self printed]. rewrite Hw. unfold bind at 1, lift at 1.
    unfold py_repeat. destruct (fits_index gw); intros H; inversion H. reflexivity.
Qed.

(** Whatever grid [get_shadow_mask] returns has the configured shape. *)
Lemma get_shadow_mask_shape sensor w w1 mask gw gh :
  py_index (grid_width (self w)) = Returns gw ->
  py_index (grid_height (self w)) = Returns gh ->
  get_shadow_mask sensor w = (w1, Returns mask) ->
  length mask = Z.to_nat gh /\
  List.Forall (fun row => length row = Z.to_nat gw) mask.
Proof.
  intros Hw Hh. unfold get_shadow_mask, try_except.
  destruct (reduction sensor w) as [w2 [m|e]] eqn:Hred.
  - intros H. inversion H; subst. eapply reduction_shape; eassumption.
  - cbn [is_Exception]. apply reduction_state in Hred. subst w2. intros H.
    destruct (fallback_shape _ _ _ _ _ _ Hw Hh H) as (_ & Hlen & Hrows).
    split; [exact Hlen|].
    eapply Forall_impl; [exact Hrows|]. cbn beta. intros row ->. apply repeat_length.
Qed.

(** ** The region of a cell, sample by sample *)

Lemma take_drop_nth {A} (d : A) (l : list A) (k a : nat) :
  (a + k <= length l)%nat ->
  firstn k (skipn a l) = map (fun i => nth i l d) (seq a k).
Proof.
  revert a. induction k as [|k IH]; intros a Hlen; [reflexivity|].
  rewrite (skipn_cons_nth d) by lia. cbn [firstn seq map]. f_equal.
  apply IH. lia.
Qed.

Lemma seq_map_offset {B} (f : nat -> B) (s n : nat) :
  map (fun x => f (s + x)%nat) (seq 0 n) = map f (seq s n).
Proof.
  revert s. induction n as [|n IH]; intros s; [reflexivity|].
  cbn [seq map]. f_equal.
  - f_equal. lia.
  - rewrite <- seq_shift, map_map. rewrite <- (IH (Datatypes.S s)).
    apply map_ext. intros x. f_equal. lia.
Qed.

Lemma map_span {B} (f : nat -> B) (a b : Z) :
  0 <= a ->
  map (fun i => f (Z.to_nat i)) (span a b) = map f (seq (Z.to_nat a) (Z.to_nat (b - a))).
Proof.
  intros Ha. unfold span. rewrite map_map, <- (seq_map_offset f (Z.to_nat a)).
  apply map_ext. intros x. f_equal. lia.
Qed.

Lemma span_spec a b y : In y (span a b) <-> a <= y < b.
Proof.
  unfold span. rewrite in_map_iff. split.
  - intros (i & <- & Hi). apply in_seq in Hi. lia.
  - intros Hy. exists (Z.to_nat (y - a)). split; [lia|]. apply in_seq. lia.
Qed.

Lemma py_slice_span {A} (d : A) (a b : Z) (l : list A) :
  0 <= a <= b -> b <= Z.of_nat (length l) ->
  py_slice a b l = map (fun i => nth (Z.to_nat i) l d) (span a b).
Proof.
  intros Hab Hb. rewrite py_slice_inside by assumption.
  rewrite (map_span (fun i => nth i l d)) by lia.
  apply take_drop_nth. lia.
Qed.

Lemma cell_bounds_floor extent cells g :
  0 <= extent -> 0 <= g < cells ->
  cell_bounds extent cells g = spec_bounds g extent cells.
Proof.
  intros He Hg. unfold cell_bounds, spec_bounds.
  rewrite !int_div_nonneg by nia. reflexivity.
Qed.

(** The samples the code averages for a cell are the samples of the frame
    at the positions the floor formulas delimit. *)
Lemma source_region_samples depth gw gh gx gy :
  well_formed depth ->
  0 <= gx < gw -> 0 <= gy < gh ->
  concat (source_region depth gw gh gx gy) = spec_samples depth gw gh gx gy.
Proof.
  intros Hwf Hx Hy. pose proof Hwf as [Hh Hw].
  unfold source_region, spec_samples.
  destruct (shape depth) as [H W] eqn:Hshape. cbn [fst snd] in *.
  destruct (samples depth) as [|row0 rows] eqn:Hsamples.
  - (* no row: nothing on either side *)
    simpl in Hh. subst H. change (Z.of_nat 0) with 0 in *.
    assert (Hy0 : cell_bounds 0 gh gy = (0, 0)).
    { unfold cell_bounds, int_div. rewrite !Z.mul_0_r, Z.quot_0_l by lia. reflexivity. }
    assert (Hs0 : spec_bounds gy 0 gh = (0, 0)).
    { unfold spec_bounds. rewrite !Z.mul_0_r, Z.div_0_l by lia. reflexivity. }
    rewrite Hy0, Hs0. destruct (cell_bounds W gw gx) as [dx1 dx2].
    destruct (spec_bounds gx W gw) as [sx1 sx2].
    unfold region_of. rewrite Hsamples. reflexivity.
  - assert (HW : 0 <= W).
    { inversion Hw as [|? ? Hrow0 _]; subst. lia. }
    assert (HH : 0 <= H) by lia.
    pose proof (cell_bounds_inside W gw gx HW Hx) as [Hx1 Hx2].
    pose proof (cell_bounds_inside H gh gy HH Hy) as [Hy1 Hy2].
    rewrite <- (cell_bounds_floor W gw gx HW Hx), <- (cell_bounds_floor H gh gy HH Hy).
    destruct (cell_bounds W gw gx) as [dx1 dx2].
    destruct (cell_bounds H gh gy) as [dy1 dy2]. cbn [fst snd] in *.
    unfold region_of. rewrite <- Hsamples in *.
    rewrite (py_slice_span [] dy1 dy2) by lia.
    rewrite map_map, flat_map_concat_map. f_equal.
    apply map_ext_in. intros y Hyin. apply span_spec in Hyin.
    rewrite (py_slice_span 0 dx1 dx2).
    + reflexivity.
    + lia.
    + pose proof (well_formed_row depth y Hwf) as Hrow.
      rewrite Hshape in Hrow. cbn [fst snd] in Hrow. rewrite Hrow by lia. lia.
Qed.

Lemma np_mean_spec depth gw gh gx gy :
  well_formed depth ->
  0 <= gx < gw -> 0 <= gy < gh ->
  np_mean (source_region depth gw gh gx gy) = spec_mean depth gw gh gx gy.
Proof.
  intros Hwf Hx Hy. unfold np_mean, spec_mean.
  rewrite (source_region_samples depth gw gh gx gy Hwf Hx Hy).
  destruct (spec_samples depth gw gh gx gy); reflexivity.
Qed.

Lemma float_ok_dec t : float_ok t \/ ~ float_ok t.
Proof. unfold float_ok. lia. Qed.


Lemma mask_shape_Z (mask : list (list bool)) gw gh :
  0 <= gw -> 0 <= gh ->
  length mask = Z.to_nat gh /\ List.Forall (fun row => length row = Z.to_nat gw) mask ->
  Z.of_nat (length mask) = gh /\ List.Forall (fun row => Z.of_nat (length row) = gw) mask.
Proof.
  intros Hgw Hgh [Hlen Hrows]. split; [lia|].
  eapply Forall_impl; [exact Hrows|]. cbn beta. intros row Hrow. lia.
Qed.

(** C4, as amended. When [depth_threshold] is an integer a double can be
    compared with (its magnitude is below [double_limit]), then for every
    cell of the grid the reducer returns, the cell is [True] if and only if
    the mean of the samples of its source region, the samples in rows
    [floor(gy*H/h) .. floor((gy+1)*H/h)) and columns
    [floor(gx*W/w) .. floor((gx+1)*W/w)), is strictly greater than 400 and
    strictly less than [depth_threshold]; a mean at or below 400, or at or
    above the threshold, gives [False], and so does a region of no
    sample. *)
Theorem cell_true_iff_mean_strictly_inside (depth : ndarray) (w : world)
    (gw gh gx gy : Z) :
  well_formed depth ->
  grid_width (self w) = PyInt gw ->
  grid_height (self w) = PyInt gh ->
  0 <= gx < gw -> 0 <= gy < gh ->
  float_ok (depth_threshold (self w)) ->
  exists mask b,
    get_shadow_mask (Returns depth) w = (w, Returns mask) /\
    mask_at mask gx gy = Some b /\
    (b = true <->
     exists m, spec_mean depth gw gh gx gy = Some m /\
               (inject_Z 400 < m)%Q /\
               (m < inject_Z (depth_threshold (self w)))%Q) /\
    (forall m, spec_mean depth gw gh gx gy = Some m ->
               (m <= inject_Z 400)%Q \/ (inject_Z (depth_threshold (self w)) <= m)%Q ->
               b = false) /\
    (spec_mean depth gw gh gx gy = None -> b = false).
Proof.
  intros Hwf Hw Hh Hx Hy Ht.
  assert (Hcell : cell_value depth gw gh (depth_threshold (self w)) gx gy =
                  strictly_inside (spec_mean depth gw gh gx gy)
                                  (depth_threshold (self w))).
  { unfold cell_value. rewrite np_mean_spec by assumption. reflexivity. }
  exists (grid_of depth gw gh (depth_threshold (self w))).
  exists (cell_value depth gw gh (depth_threshold (self w)) gx gy).
  split; [|split; [|split; [|split]]].
  - apply get_shadow_mask_frame; [rewrite Hw | rewrite Hh | exact Ht]; reflexivity.
  - apply grid_of_at; assumption.
  - rewrite Hcell. apply strictly_inside_spec.
  - intros m Hm Hout. apply not_true_is_false. intros Hb.
    rewrite Hcell in Hb. apply strictly_inside_spec in Hb.
    destruct Hb as (m' & Hm' & H400 & Hlt). rewrite Hm in Hm'.
    inversion Hm'; subst m'. destruct Hout as [Hout|Hout].
    + apply (Qlt_not_le _ _ H400). exact Hout.
    + apply (Qlt_not_le _ _ Hlt). exact Hout.
  - intros Hnone. rewrite Hcell, Hnone. reflexivity.
Qed.

Lemma cell_true_iff_mean_strictly_inside_witness :
  exists mask b,
    get_shadow_mask (Returns small_frame) (serving (PyInt 2) (PyInt 1) 1200) =
      (serving (PyInt 2) (PyInt 1) 1200, Returns mask) /\
    mask_at mask 0 0 = Some b /\
    (b = true <->
     exists m, spec_mean small_frame 2 1 0 0 = Some m /\
               (inject_Z 400 < m)%Q /\ (m < inject_Z 1200)%Q).
Proof.
  destruct (cell_true_iff_mean_strictly_inside small_frame
              (serving (PyInt 2) (PyInt 1) 1200) 2 1 0 0)
    as (mask & b & Hmask & Hb & Hiff & _).
  - split; [reflexivity | repeat constructor].
  - reflexivity.
  - reflexivity.
  - lia.
  - lia.
  - vm_compute. reflexivity.
  - exists mask, b. split; [exact Hmask | split; [exact Hb | exact Hiff]].
Defined.

(** C4, as stated, fails: a viewer can set a threshold too large for a
    double.  The comparison then raises for every cell, the reducer prints
    the error and returns the all-[False] grid, although the mean of the
    cell, 850, is strictly greater than 400 and strictly less than the
    threshold. *)
Lemma huge_threshold_clears_every_cell :
  let w := serving (PyInt 2) (PyInt 1) (2 ^ 1024) in
  get_shadow_mask (Returns small_frame) w =
    (printed (DDepthError OverflowError) w, Returns [[false; false]]) /\
  mask_at [[false; false]] 0 0 = Some false /\
  spec_mean small_frame 2 1 0 0 = Some (3400 # 4)%Q /\
  (inject_Z 400 < 3400 # 4)%Q /\
  (3400 # 4 < inject_Z (depth_threshold (self w)))%Q.
Proof.
  split; [|split; [|split; [|split]]]; try reflexivity.
Qed.




(** C7, as amended. When the threshold is one a double can be compared
    with, reducing a frame of H rows and W columns with [grid_width = W]
    and [grid_height = H] gives, at every position, the thresholding of the
    sample at that position: the grid is the frame with each sample [v]
    replaced by [400 < v < depth_threshold]. *)
Theorem full_resolution_is_pixel_thresholding (depth : ndarray) (w : world) :
  well_formed depth ->
  grid_width (self w) = PyInt (snd (shape depth)) ->
  grid_height (self w) = PyInt (fst (shape depth)) ->
  float_ok (depth_threshold (self w)) ->
  get_shadow_mask (Returns depth) w =
    (w, Returns (map (map (pixel_shadow (depth_threshold (self w)))) (samples depth))).
Proof.
  intros Hwf Hw Hh Ht.
  rewrite (get_shadow_mask_frame depth w (snd (shape depth)) (fst (shape depth)))
    by (rewrite ?Hw, ?Hh; first [reflexivity | exact Ht]).
  rewrite grid_of_full_resolution by assumption. reflexivity.
Qed.

Lemma full_resolution_is_pixel_thresholding_witness :
  get_shadow_mask (Returns small_frame) (serving (PyInt 4) (PyInt 2) 1200) =
    (serving (PyInt 4) (PyInt 2) 1200,
     Returns [[true; true; false; false]; [true; false; true; true]]).
Proof.
  apply (full_resolution_is_pixel_thresholding small_frame
           (serving (PyInt 4) (PyInt 2) 1200)).
  - split; [reflexivity | repeat constructor].
  - reflexivity.
  - reflexivity.
  - vm_compute. reflexivity.
Defined.

(** C7, as stated, fails: at full resolution, with a threshold too large
    for a double, the reducer prints the error and returns the all-[False]
    grid, while the thresholding of the only sample, 800, is [True]. *)
Lemma huge_threshold_is_not_pixel_thresholding :
  let depth := {| shape := (1, 1); samples := [[800]] |} in
  let w := serving (PyInt 1) (PyInt 1) (2 ^ 1024) in
  well_formed depth /\
  get_shadow_mask (Returns depth) w =
    (printed (DDepthError OverflowError) w, Returns [[false]]) /\
  map (map (pixel_shadow (depth_threshold (self w)))) (samples depth) = [[true]].
Proof.
  cbn zeta. split; [|split].
  - split; [reflexivity | repeat constructor].
  - reflexivity.
  - reflexivity.
Qed.




Lemma same_wire_refl w : same_wire w w.
Proof. reflexivity. Qed.

Lemma same_wire_trans w1 w2 w3 : same_wire w1 w2 -> same_wire w2 w3 -> same_wire w1 w3.
Proof. unfold same_wire. congruence. Qed.

Lemma on_message_same_wire json_loads int_of_str text :
  preserves same_wire (on_message json_loads int_of_str text).
Proof.
  unfold on_message, read, print, update.
  preserve same_wire_refl same_wire_trans; reflexivity.
Qed.

Lemma on_close_same_wire c : preserves same_wire (on_close c).
Proof.
  unfold on_close, remove_client, read, print, update.
  preserve same_wire_refl same_wire_trans; reflexivity.
Qed.

(** ** One pass of the broadcast loop *)

Lemma fan_out (xs : list client) (m : message) (send : client -> result unit) (w : world) :
  for_each xs (fun c => record_send c m (send c)) w =
    (sent w (map (fun c => (c, m, send c)) xs), Returns (map (fun _ => tt) xs)).
Proof.
  revert w. induction xs as [|c xs IH]; intros w; cbn [for_each map].
  - unfold ret, sent. rewrite app_nil_r. destruct w; reflexivity.
  - unfold bind at 1, record_send at 1, modify.
    unfold bind at 1. rewrite IH. unfold ret, sent. cbn [self stdout wire].
    rewrite <- app_assoc. reflexivity.
Qed.

Lemma broadcast_iteration_idle sensor send fc w :
  clients (self w) = ∅ ->
  broadcast_iteration sensor send fc w = (w, Returns fc).
Proof.
  intros Hcs. unfold broadcast_iteration.
  unfold bind at 1, read at 1, bind at 1, get, ret at 1.
  destruct (decide (clients (self w) = ∅)); [reflexivity | contradiction].
Qed.

Lemma broadcast_iteration_raises sensor send fc w w1 e :
  clients (self w) <> ∅ ->
  get_shadow_mask sensor w = (w1, Raises e) ->
  broadcast_iteration sensor send fc w = (w1, Raises e).
Proof.
  intros Hcs Hmask. unfold broadcast_iteration.
  unfold bind at 1, read at 1, bind at 1, get, ret at 1.
  destruct (decide (clients (self w) = ∅)); [contradiction|].
  unfold bind at 1. rewrite Hmask. reflexivity.
Qed.

Lemma broadcast_iteration_sends sensor send fc w w1 mask :
  clients (self w) <> ∅ ->
  get_shadow_mask sensor w = (w1, Returns mask) ->
  broadcast_iteration sensor send fc w =
    (let w2 := sent w1 (deliveries (clients (self w)) (message_of (self w) mask fc) send) in
     if (fc + 1) mod 30 =? 0
     then printed (DFrame (fc + 1) (shadow_count mask) (size (clients (self w)))) w2
     else w2,
     Returns (fc + 1)).
Proof.
  intros Hcs Hmask.
  pose proof (get_shadow_mask_only_prints sensor w) as [Hself _].
  rewrite Hmask in Hself. cbn [fst] in Hself.
  unfold broadcast_iteration.
  unfold bind at 1, read at 1, bind at 1, get, ret at 1.
  destruct (decide (clients (self w) = ∅)); [contradiction|].
  unfold bind at 1. rewrite Hmask.
  unfold read, bind, get, ret. cbn [fst snd]. rewrite Hself.
  destruct (decide (clients (self w) = ∅)); [contradiction|].
  rewrite fan_out. cbn [self sent]. rewrite Hself.
  unfold message_of, deliveries.
  destruct ((fc + 1) mod 30 =? 0); reflexivity.
Qed.

Lemma row_count (row : list bool) :
  Zsum (map Zof_bool row) = Z.of_nat (length (List.filter (fun b : bool => b) row)).
Proof.
  induction row as [|b row IH]; [reflexivity|].
  cbn [map Zsum fold_right List.filter]. fold (Zsum (map Zof_bool row)). rewrite IH.
  destruct b; cbn [Zof_bool length]; lia.
Qed.

Lemma shadow_count_true_cells mask : shadow_count mask = true_cells mask.
Proof.
  unfold shadow_count, true_cells.
  induction mask as [|row mask IH]; [reflexivity|].
  cbn [map Zsum fold_right concat].
  fold (Zsum (map (fun row => Zsum (map Zof_bool row)) mask)).
  rewrite IH, row_count, List.filter_app, length_app. lia.
Qed.

(** ** The claims about the broadcast loop *)

(** C9, as amended. In a pass with viewers connected in which the reducer
    returned a grid, whatever each send does (return or raise): one send is
    attempted for every connection of the set, all with the same message;
    the pass ends normally with the frame counter advanced and the loop goes
    on with the next pass; and the pass leaves the server object, the
    connection set included, as it was: the broadcast loop deregisters
    nobody. *)
Theorem delivery_failures_are_isolated (sensor : result ndarray)
    (send : client -> result unit) (fc : Z) (w w1 : world) (mask : list (list bool)) :
  clients (self w) <> ∅ ->
  get_shadow_mask sensor w = (w1, Returns mask) ->
  exists w',
    broadcast_iteration sensor send fc w = (w', Returns (fc + 1)) /\
    wire w' = wire w ++ deliveries (clients (self w)) (message_of (self w) mask fc) send /\
    (forall c, c ∈ clients (self w) ->
               In (c, message_of (self w) mask fc, send c) (wire w')) /\
    self w' = self w /\
    (is_running (self w) = true ->
     forall ticks, broadcast_loop ((sensor, send) :: ticks) fc w =
                   broadcast_loop ticks (fc + 1) w').
Proof.
  intros Hcs Hmask.
  pose proof (get_shadow_mask_only_prints sensor w) as [Hself Hwire].
  rewrite Hmask in Hself, Hwire. cbn [fst] in Hself, Hwire.
  assert (Hloop : forall w', broadcast_iteration sensor send fc w = (w', Returns (fc + 1)) ->
            is_running (self w) = true ->
            forall ticks, broadcast_loop ((sensor, send) :: ticks) fc w =
                          broadcast_loop ticks (fc + 1) w').
  { intros w' Hiter Hrun ticks. cbn [broadcast_loop].
    unfold bind at 1, read at 1, bind at 1, get, ret at 1. rewrite Hrun.
    unfold bind at 1. rewrite Hiter. reflexivity. }
  specialize (Hloop _ (broadcast_iteration_sends sensor send fc w w1 mask Hcs Hmask)).
  revert Hloop.
  rewrite (broadcast_iteration_sends sensor send fc w w1 mask Hcs Hmask).
  intros Hloop.
  eexists. split; [reflexivity|].
  assert (Hw : forall d w2, wire (if (fc + 1) mod 30 =? 0 then printed d w2 else w2) = wire w2
                            /\ self (if (fc + 1) mod 30 =? 0 then printed d w2 else w2) = self w2).
  { intros d w2. destruct ((fc + 1) mod 30 =? 0); split; reflexivity. }
  cbn zeta. split; [|split; [|split]].
  - rewrite (proj1 (Hw _ _)). cbn [wire sent]. rewrite Hwire. reflexivity.
  - intros c Hc. rewrite (proj1 (Hw _ _)). cbn [wire sent].
    apply in_or_app. right. unfold deliveries.
    apply in_map_iff. exists c. split; [reflexivity|].
    apply list_elem_of_In, elem_of_elements. exact Hc.
  - rewrite (proj2 (Hw _ _)). cbn [self sent]. exact Hself.
  - exact Hloop.
Qed.

Lemma delivery_failures_are_isolated_witness :
  let w := serving (PyInt 2) (PyInt 1) 1200 in
  let send := fun c : client =>
                if decide (c = 1%nat) then Raises ConnectionClosed else Returns tt in
  exists w',
    broadcast_iteration (Returns small_frame) send 0 w = (w', Returns 1) /\
    In (2%nat, message_of (self w) [[true; false]] 0, Returns tt) (wire w') /\
    In (1%nat, message_of (self w) [[true; false]] 0, Raises ConnectionClosed) (wire w').
Proof.
  intros w send.
  assert (Hcs : clients (self w) <> ∅).
  { intros H. assert (Hin : 1%nat ∈ clients (self w)) by (cbn; set_solver).
    rewrite H in Hin. set_solver. }
  destruct (delivery_failures_are_isolated (Returns small_frame) send 0 w w
              [[true; false]] Hcs eq_refl) as (w' & Hrun & _ & Hall & _).
  exists w'. split; [exact Hrun|]. split.
  - apply (Hall 2%nat). cbn. set_solver.
  - apply (Hall 1%nat). cbn. set_solver.
Defined.

(** C9, as stated, fails in its last part: with viewers 1 and 2 connected
    and the send to viewer 1 raising, the pass completes and viewer 1 is
    still in the connection set. *)
Lemma failed_viewer_stays_registered :
  let w := serving (PyInt 2) (PyInt 1) 1200 in
  let send := fun c : client =>
                if decide (c = 1%nat) then Raises ConnectionClosed else Returns tt in
  let w' := fst (broadcast_iteration (Returns small_frame) send 0 w) in
  send 1%nat = Raises ConnectionClosed /\
  snd (broadcast_iteration (Returns small_frame) send 0 w) = Returns 1 /\
  1%nat ∈ clients (self w') /\
  clients (self w') = clients (self w).
Proof.
  intros w send w'.
  assert (Hcs : clients (self w) <> ∅).
  { intros H. assert (Hin : 1%nat ∈ clients (self w)) by (cbn; set_solver).
    rewrite H in Hin. set_solver. }
  assert (Hself : self w' = self w).
  { subst w'.
    rewrite (broadcast_iteration_sends (Returns small_frame) send 0 w w
               [[true; false]] Hcs eq_refl).
    reflexivity. }
  split; [reflexivity|]. split.
  - rewrite (broadcast_iteration_sends (Returns small_frame) send 0 w w
               [[true; false]] Hcs eq_refl).
    reflexivity.
  - rewrite Hself. split; [cbn; set_solver | reflexivity].
Qed.

Lemma mask_agrees sensor w w1 mask fc :
  get_shadow_mask sensor w = (w1, Returns mask) ->
  metadata_agree (message_of (self w) mask fc).
Proof.
  intros Hmask. split; cbn [message_of m_shadow_cells m_data m_grid_width m_grid_height].
  - apply shadow_count_true_cells.
  - intros gw gh Hw Hh Hgw Hgh.
    assert (Hiw : py_index (grid_width (self w)) = Returns gw) by (rewrite Hw; reflexivity).
    assert (Hih : py_index (grid_height (self w)) = Returns gh) by (rewrite Hh; reflexivity).
    apply mask_shape_Z; [lia | lia |].
    eapply get_shadow_mask_shape; eassumption.
Qed.

Lemma broadcast_iteration_wire sensor send fc w :
  exists ds, wire (fst (broadcast_iteration sensor send fc w)) = wire w ++ ds /\
             all_agree ds.
Proof.
  destruct (decide (clients (self w) = ∅)) as [Hcs|Hcs].
  - rewrite broadcast_iteration_idle by assumption.
    exists []. split; [symmetry; apply app_nil_r | constructor].
  - pose proof (get_shadow_mask_only_prints sensor w) as [_ Hwire].
    destruct (get_shadow_mask sensor w) as [w1 [mask|e]] eqn:Hmask; cbn [fst] in Hwire.
    + rewrite (broadcast_iteration_sends sensor send fc w w1 mask Hcs Hmask).
      exists (deliveries (clients (self w)) (message_of (self w) mask fc) send). split.
      * cbn [fst]. destruct ((fc + 1) mod 30 =? 0); cbn [wire printed sent];
          rewrite Hwire; reflexivity.
      * unfold all_agree, deliveries. apply Forall_map, List.Forall_forall.
        intros c _. cbn [fst snd]. eapply mask_agrees. exact Hmask.
    + rewrite (broadcast_iteration_raises sensor send fc w w1 e Hcs Hmask).
      exists []. cbn [fst]. rewrite Hwire. split; [symmetry; apply app_nil_r | constructor].
Qed.

Lemma step_wire json_loads int_of_str i fc w :
  exists ds, wire (fst (step json_loads int_of_str i fc w)) = wire w ++ ds /\
             all_agree ds.
Proof.
  assert (Hsame : forall m : S Z, preserves same_wire m ->
            exists ds, wire (fst (m w)) = wire w ++ ds /\ all_agree ds).
  { intros m Hm. exists []. rewrite app_nil_r. split; [apply Hm | constructor]. }
  destruct i as [c|c text|c|sensor send]; cbn [step].
  - apply Hsame. unfold read, print, update.
    preserve same_wire_refl same_wire_trans; reflexivity.
  - apply Hsame. unfold in_handler.
    preserve same_wire_refl same_wire_trans; reflexivity.
  - apply Hsame. unfold in_handler.
    preserve same_wire_refl same_wire_trans; reflexivity.
  - unfold bind at 1, read at 1, bind at 1, get, ret at 1.
    destruct (is_running (self w)).
    + apply broadcast_iteration_wire.
    + exists []. split; [symmetry; apply app_nil_r | constructor].
Qed.

Lemma run_wire json_loads int_of_str inputs fc w :
  exists ds, wire (fst (run json_loads int_of_str inputs fc w)) = wire w ++ ds /\
             all_agree ds.
Proof.
  revert fc w. induction inputs as [|i inputs IH]; intros fc w; cbn [run].
  - exists []. split; [symmetry; apply app_nil_r | constructor].
  - unfold bind.
    destruct (step_wire json_loads int_of_str i fc w) as (ds1 & Hds1 & Hagree1).
    destruct (step json_loads int_of_str i fc w) as [w1 [fc1|e]]; cbn [fst] in *.
    + destruct (IH fc1 w1) as (ds2 & Hds2 & Hagree2).
      exists (ds1 ++ ds2). split.
      * rewrite Hds2, Hds1, app_assoc. reflexivity.
      * apply Forall_app; split; assumption.
    + exists ds1. split; assumption.
Qed.

(** C10, as amended. Whatever viewers connect, send and disconnect and
    whatever the sensor and the sends do, every message the broadcast loop
    puts on the wire agrees with its data: [shadow_cells] is the number of
    [True] cells, and when [grid_width] and [grid_height] in the metadata are
    non-negative integers, the data have [grid_height] rows of [grid_width]
    cells each. *)
Theorem sent_metadata_agree_with_data (json_loads : string -> option pyval)
    (int_of_str : string -> option Z) (inputs : list input) (fc : Z) (w : world) :
  all_agree (wire w) ->
  all_agree (wire (fst (run json_loads int_of_str inputs fc w))).
Proof.
  intros Hw. destruct (run_wire json_loads int_of_str inputs fc w) as (ds & -> & Hds).
  apply Forall_app; split; assumption.
Qed.

Lemma sent_metadata_agree_with_data_witness :
  all_agree
    (wire (fst (run (fun _ => Some full_update) (fun _ => None)
                  [Connect 1%nat; Tick (Returns small_frame) (fun _ => Returns tt);
                   Message 1%nat "update";
                   Tick (Raises (SensorError "no frame")) (fun _ => Raises ConnectionClosed)]
                  0 (new_world (new_server 160 120 1200))))).
Proof.
  apply sent_metadata_agree_with_data. cbn. constructor.
Defined.

(** C10, as stated, fails: after a viewer sets the grid size to -1 x -1, the
    next pass sends a message whose data have no row while its metadata say
    [grid_height = -1] and [grid_width = -1]. *)
Lemma negative_grid_size_disagrees :
  let w := fst (run (fun _ => Some negative_size) (fun _ => None)
                  [Connect 1%nat; Message 1%nat "shrink";
                   Tick (Returns small_frame) (fun _ => Returns tt)]
                  0 (new_world (new_server 160 120 1200))) in
  exists m,
    wire w = [(1%nat, m, Returns tt)] /\
    m_data m = [] /\
    m_grid_height m = PyInt (-1) /\
    m_grid_width m = PyInt (-1) /\
    ~ metadata_match m.
Proof.
  cbn zeta. eexists. split; [vm_compute; reflexivity|].
  cbn [m_data m_grid_height m_grid_width].
  repeat (split; [reflexivity|]).
  intros (_ & Hh & _). cbn in Hh. discriminate Hh.
Qed.

(** ** The claims about viewer sessions *)

(** Text that is not JSON is logged and dropped: the configuration is
    untouched and the loop over the messages goes on. *)
Lemma on_message_invalid_json json_loads int_of_str text w :
  json_loads text = None ->
  on_message json_loads int_of_str text w = (printed (DInvalidJson text) w, Returns tt).
Proof.
  intros Hloads. unfold on_message, try_except.
  unfold bind at 1, lift at 1. rewrite Hloads. reflexivity.
Qed.

(** A well-formed update is applied and the loop goes on. *)
Lemma on_message_full_update json_loads int_of_str text w :
  json_loads text = Some full_update ->
  on_message json_loads int_of_str text w =
    ({| self := set_grid_height (PyInt 60)
                  (set_grid_width (PyInt 80) (set_depth_threshold 900 (self w)));
        stdout := stdout w ++ [DThreshold 900; DGridSize (PyInt 80) (PyInt 60)];
        wire := wire w |}, Returns tt).
Proof.
  intros Hloads. unfold on_message, try_except.
  unfold bind at 1, lift at 1. rewrite Hloads.
  cbn. unfold printed. cbn [self stdout wire]. rewrite <- app_assoc. reflexivity.
Qed.

(** JSON of the wrong shape: the width is assigned, the lookup of the
    height raises [KeyError], which the [except] clause does not catch. *)
Lemma on_message_width_only json_loads int_of_str text w :
  json_loads text = Some width_only ->
  on_message json_loads int_of_str text w =
    ({| self := set_grid_width (PyInt 80) (self w);
        stdout := stdout w; wire := wire w |}, Raises KeyError).
Proof.
  intros Hloads. unfold on_message, try_except.
  unfold bind at 1, lift at 1. rewrite Hloads. reflexivity.
Qed.

(** C1, at a message that parses but lacks [height]: processing it changes
    [grid_width] to 80, and the [KeyError] leaves [handle_client], whose
    [finally] clause deregisters the viewer; the messages that follow are
    never read and the connection is closed. *)
Theorem malformed_message_alters_config_and_ends_session
    (json_loads : string -> option pyval) (int_of_str : string -> option Z)
    (text : string) (later : list string) (abrupt : bool) (c : client) (w : world) :
  json_loads text = Some width_only ->
  handle_client json_loads int_of_str c (text :: later) abrupt w =
    ({| self := set_clients (({[c]} ∪ clients (self w)) ∖ {[c]})
                  (set_grid_width (PyInt 80)
                     (set_clients ({[c]} ∪ clients (self w)) (self w)));
        stdout := stdout w ++
                  [DConnected c (size ({[c]} ∪ clients (self w)));
                   DDisconnected c (size (({[c]} ∪ clients (self w)) ∖ {[c]}))];
        wire := wire w |},
     Raises KeyError).
Proof.
  intros Hloads. unfold handle_client.
  unfold bind at 1, read at 1, bind at 1, get, ret at 1.
  unfold bind at 1, update at 1, modify.
  unfold bind at 1, read at 1, bind at 1, get, ret at 1. cbn [self set_clients clients].
  unfold bind at 1, print at 1, modify. cbn [printed self stdout wire].
  unfold try_finally, try_except at 1. cbn [for_each].
  unfold bind at 1. unfold bind at 1.
  rewrite (on_message_width_only json_loads int_of_str text _ Hloads).
  cbn [is_ConnectionClosed self stdout wire].
  unfold on_close, remove_client, read, bind, get, ret.
  cbn [self set_grid_width clients].
  case_decide; [|set_solver].
  unfold update, print, modify, printed. cbn [self stdout wire set_clients clients].
  rewrite <- app_assoc. reflexivity.
Qed.

Lemma malformed_message_alters_config_and_ends_session_witness :
  let w := new_world (new_server 160 120 1200) in
  let w' := fst (handle_client (fun _ => Some width_only) (fun _ => None) 1%nat
                   ["grid_size with a width only"; "next message"] false w) in
  snd (handle_client (fun _ => Some width_only) (fun _ => None) 1%nat
         ["grid_size with a width only"; "next message"] false w) = Raises KeyError /\
  grid_width (self w') = PyInt 80 /\
  grid_width (self w) = PyInt 160 /\
  grid_height (self w') = PyInt 120.
Proof.
  intros w w'. subst w'.
  rewrite (malformed_message_alters_config_and_ends_session
             (fun _ => Some width_only) (fun _ => None)
             "grid_size with a width only" ["next message"] false 1%nat w eq_refl).
  repeat split; reflexivity.
Defined.

(** ** Further properties of the grid reducer *)

Lemma cell_bounds_step extent cells g :
  snd (cell_bounds extent cells g) = fst (cell_bounds extent cells (g + 1)).
Proof. reflexivity. Qed.

Lemma cell_bounds_ends extent cells :
  0 < cells ->
  fst (cell_bounds extent cells 0) = 0 /\
  snd (cell_bounds extent cells (cells - 1)) = extent.
Proof.
  intros Hc. unfold cell_bounds, int_div. cbn [fst snd]. split.
  - rewrite Z.mul_0_l. apply Z.quot_0_l. lia.
  - replace (cells - 1 + 1) with cells by lia.
    rewrite Z.mul_comm. apply Z.quot_mul. lia.
Qed.

Lemma cell_bounds_monotone extent cells g g' :
  0 <= extent -> 0 < cells -> 0 <= g <= g' ->
  fst (cell_bounds extent cells g) <= fst (cell_bounds extent cells g').
Proof.
  intros He Hc Hg. unfold cell_bounds. cbn [fst].
  rewrite !int_div_nonneg by nia. apply Z.div_le_mono; nia.
Qed.

(** The regions of the cells of a row (or a column) tile the frame: every
    sample index below the extent lies between the bounds of exactly one
    cell, so no sample is dropped and none is averaged twice. *)
Theorem every_sample_in_one_cell (extent cells x : Z) :
  0 < cells -> 0 <= x < extent ->
  exists g,
    (0 <= g < cells /\
     fst (cell_bounds extent cells g) <= x < snd (cell_bounds extent cells g)) /\
    forall g',
      0 <= g' < cells ->
      fst (cell_bounds extent cells g') <= x < snd (cell_bounds extent cells g') ->
      g' = g.
Proof.
  intros Hc Hx.
  assert (Hex : forall n : nat,
            Z.of_nat n <= cells -> x < fst (cell_bounds extent cells (Z.of_nat n)) ->
            exists g, 0 <= g < Z.of_nat n /\
                      fst (cell_bounds extent cells g) <= x
                        < snd (cell_bounds extent cells g)).
  { induction n as [|n IH]; intros Hn Hlt.
    - destruct (cell_bounds_ends extent cells Hc) as [H0 _].
      change (Z.of_nat 0) with 0 in Hlt. lia.
    - destruct (Z_lt_le_dec x (fst (cell_bounds extent cells (Z.of_nat n)))) as [Hlow|Hlow].
      + destruct (IH ltac:(lia) Hlow) as (g & Hg & Hin). exists g. split; [lia | exact Hin].
      + exists (Z.of_nat n). split; [lia|]. split; [exact Hlow|].
        rewrite cell_bounds_step. replace (Z.of_nat n + 1) with (Z.of_nat (Datatypes.S n)) by lia.
        exact Hlt. }
  destruct (Hex (Z.to_nat cells)) as (g & Hg & Hin).
  - lia.
  - destruct (cell_bounds_ends extent cells Hc) as [_ Hlast].
    rewrite cell_bounds_step in Hlast.
    replace (Z.of_nat (Z.to_nat cells)) with (cells - 1 + 1) by lia. lia.
  - exists g. split; [split; [lia | exact Hin]|].
    intros g' Hg' Hin'.
    destruct (Z.lt_trichotomy g' g) as [Hlt | [Heq | Hgt]]; [|exact Heq|].
    + pose proof (cell_bounds_monotone extent cells (g' + 1) g ltac:(lia) Hc ltac:(lia)) as Hm.
      rewrite <- cell_bounds_step in Hm. lia.
    + pose proof (cell_bounds_monotone extent cells (g + 1) g' ltac:(lia) Hc ltac:(lia)) as Hm.
      rewrite <- cell_bounds_step in Hm. lia.
Qed.

Lemma every_sample_in_one_cell_witness :
  exists g,
    (0 <= g < 160 /\
     fst (cell_bounds 640 160 g) <= 333 < snd (cell_bounds 640 160 g)) /\
    forall g',
      0 <= g' < 160 ->
      fst (cell_bounds 640 160 g') <= 333 < snd (cell_bounds 640 160 g') ->
      g' = g.
Proof.
  apply (every_sample_in_one_cell 640 160 333); lia.
Defined.

Lemma Qltb_inject_l (t : Z) (q : Q) :
  Qltb q (inject_Z t) = (Qnum q <? t * Zpos (Qden q)).
Proof. unfold Qltb, inject_Z. cbn [Qnum Qden]. rewrite Z.mul_1_r. reflexivity. Qed.

Lemma Qltb_inject_r (t : Z) (q : Q) :
  Qltb (inject_Z t) q = (t * Zpos (Qden q) <? Qnum q).
Proof. unfold Qltb, inject_Z. cbn [Qnum Qden]. rewrite Z.mul_1_r. reflexivity. Qed.

(** Raising the threshold never clears a cell: a cell that is a shadow at
    threshold [t] is a shadow at every larger threshold. *)
Lemma cell_value_monotone (depth : ndarray) (gw gh gx gy t t' : Z) :
  t <= t' ->
  cell_value depth gw gh t gx gy = true ->
  cell_value depth gw gh t' gx gy = true.
Proof.
  intros Ht. unfold cell_value, strictly_inside.
  destruct (np_mean (source_region depth gw gh gx gy)) as [avg|]; [|discriminate].
  rewrite !andb_true_iff, !Qltb_inject_l, !Z.ltb_lt.
  intros [Hlt H400]. split; [nia | exact H400].
Qed.

Lemma cell_returns depth gw gh t gx gy b :
  cell depth gw gh t gx gy = Returns b ->
  float_ok t /\ cell_value depth gw gh t gx gy = b.
Proof.
  intros Hcell. destruct (float_ok_dec t) as [Ht|Ht].
  - rewrite (cell_in_range _ _ _ _ _ _ Ht) in Hcell. inversion Hcell. split; [exact Ht | reflexivity].
  - rewrite (cell_overflow _ _ _ _ _ _ Ht) in Hcell. discriminate.
Qed.

(** Raising the threshold, as long as it stays one a double can be compared
    with, never clears a cell: a cell computed as a shadow at threshold [t]
    is computed as a shadow at every such larger threshold. *)
Theorem larger_threshold_keeps_shadows (depth : ndarray) (gw gh gx gy t t' : Z) :
  t <= t' ->
  float_ok t' ->
  cell depth gw gh t gx gy = Returns true ->
  cell depth gw gh t' gx gy = Returns true.
Proof.
  intros Hle Ht' Hcell. apply cell_returns in Hcell. destruct Hcell as [_ Hcell].
  rewrite (cell_in_range _ _ _ _ _ _ Ht'). f_equal.
  exact (cell_value_monotone depth gw gh gx gy t t' Hle Hcell).
Qed.

Lemma larger_threshold_keeps_shadows_witness :
  cell small_frame 2 1 5000 0 0 = Returns true.
Proof.
  apply (larger_threshold_keeps_shadows small_frame 2 1 0 0 1200 5000).
  - lia.
  - vm_compute. reflexivity.
  - reflexivity.
Defined.

Lemma Zsum_app xs ys : Zsum (xs ++ ys) = Zsum xs + Zsum ys.
Proof.
  unfold Zsum. induction xs as [|x xs IH]; cbn [app fold_right]; [reflexivity | lia].
Qed.

Lemma Zsum_bounds (lo hi : Z) (xs : list Z) :
  List.Forall (fun v => lo <= v <= hi) xs ->
  lo * Z.of_nat (length xs) <= Zsum xs <= hi * Z.of_nat (length xs).
Proof.
  induction 1 as [|x xs Hx _ IH]; cbn [length Zsum fold_right].
  - lia.
  - fold (Zsum xs). lia.
Qed.

Lemma Forall_concat {A} (P : A -> Prop) (ls : list (list A)) :
  List.Forall (List.Forall P) ls -> List.Forall P (concat ls).
Proof.
  induction 1 as [|l ls Hl _ IH]; cbn [concat]; [constructor|].
  apply Forall_app. split; assumption.
Qed.

Lemma source_region_keeps (P : Z -> Prop) depth gw gh gx gy :
  List.Forall (List.Forall P) (samples depth) ->
  List.Forall P (concat (source_region depth gw gh gx gy)).
Proof.
  intros H. apply Forall_concat. unfold source_region.
  destruct (shape depth) as [hh ww].
  destruct (cell_bounds ww gw gx) as [dx1 dx2].
  destruct (cell_bounds hh gh gy) as [dy1 dy2].
  unfold region_of. apply Forall_map.
  eapply Forall_impl; [apply py_slice_keeps; exact H|].
  cbn beta. intros row Hrow. apply py_slice_keeps. exact Hrow.
Qed.

Lemma np_mean_value (region : list (list Z)) (avg : Q) :
  np_mean region = Some avg ->
  Qnum avg = Zsum (concat region) /\
  Zpos (Qden avg) = Z.of_nat (length (concat region)) /\
  (0 < length (concat region))%nat.
Proof.
  unfold np_mean. destruct (concat region) as [|v xs] eqn:Hxs; [discriminate|].
  intros H. inversion H; subst avg. cbn [Qnum Qden]. repeat split.
  - cbn [length]. rewrite <- Pos.of_nat_succ, Zpos_P_of_succ_nat. lia.
  - cbn [length]. lia.
Qed.






Lemma all_near_samples_cell_value (depth : ndarray) (gw gh gx gy t : Z) :
  well_formed depth ->
  1 <= gw <= snd (shape depth) ->
  1 <= gh <= fst (shape depth) ->
  0 <= gx < gw -> 0 <= gy < gh ->
  List.Forall (List.Forall (fun v => 400 < v < t)) (samples depth) ->
  cell_value depth gw gh t gx gy = true.
Proof.
  intros [Hh Hw] Hgw Hgh Hx Hy Hall.
  pose proof (source_region_keeps _ depth gw gh gx gy Hall) as Hreg.
  unfold cell_value, strictly_inside.
  assert (Hmean : exists avg, np_mean (source_region depth gw gh gx gy) = Some avg).
  { unfold source_region in *. destruct (shape depth) as [H W]. cbn [fst snd] in *.
    pose proof (cell_bounds_inside W gw gx ltac:(lia) Hx) as [Hx1 Hx2].
    pose proof (cell_bounds_inside H gh gy ltac:(lia) Hy) as [Hy1 Hy2].
    pose proof (cell_bounds_wide W gw gx Hx ltac:(lia)) as Hxw.
    pose proof (cell_bounds_wide H gh gy Hy ltac:(lia)) as Hyw.
    destruct (cell_bounds W gw gx) as [dx1 dx2].
    destruct (cell_bounds H gh gy) as [dy1 dy2]. cbn [fst snd] in *.
    apply np_mean_defined.
    - intros Hnil.
      assert (Hlen : Z.of_nat (length (region_of depth dy1 dy2 dx1 dx2)) = dy2 - dy1).
      { unfold region_of. rewrite length_map. apply py_slice_length; lia. }
      rewrite Hnil in Hlen. cbn in Hlen. lia.
    - unfold region_of. apply Forall_map.
      eapply Forall_impl; [apply py_slice_keeps; exact Hw|].
      cbn beta. intros row Hrow Hnil.
      assert (Hlen : Z.of_nat (length (py_slice dx1 dx2 row)) = dx2 - dx1)
        by (apply py_slice_length; lia).
      rewrite Hnil in Hlen. cbn in Hlen. lia. }
  destruct Hmean as [avg Hmean]. rewrite Hmean.
  destruct (np_mean_value _ _ Hmean) as (Hnum & Hden & Hpos).
  rewrite Qltb_inject_l, Qltb_inject_r, Hnum, Hden.
  assert (Hsum : forall xs, List.Forall (fun v => 400 < v < t) xs -> (0 < length xs)%nat ->
                   400 * Z.of_nat (length xs) < Zsum xs < t * Z.of_nat (length xs)).
  { clear. intros xs Hxs. induction Hxs as [|x xs Hx Hxs IH]; cbn [length]; [lia|].
    intros _. cbn [Zsum fold_right]. fold (Zsum xs).
    destruct xs as [|y ys].
    - cbn. lia.
    - specialize (IH ltac:(cbn; lia)). lia. }
  specialize (Hsum _ Hreg Hpos).
  apply andb_true_iff. split; apply Z.ltb_lt; lia.
Qed.

(** With every sample strictly between 400 and the threshold, a threshold
    a double can be compared with and a grid no finer than the frame, every
    cell is computed as a shadow: averaging cannot take a region out of the
    range its samples are in. *)
Theorem all_near_samples_all_shadow (depth : ndarray) (gw gh gx gy t : Z) :
  well_formed depth ->
  1 <= gw <= snd (shape depth) ->
  1 <= gh <= fst (shape depth) ->
  0 <= gx < gw -> 0 <= gy < gh ->
  float_ok t ->
  List.Forall (List.Forall (fun v => 400 < v < t)) (samples depth) ->
  cell depth gw gh t gx gy = Returns true.
Proof.
  intros Hwf Hgw Hgh Hx Hy Ht Hall.
  rewrite (cell_in_range _ _ _ _ _ _ Ht). f_equal.
  apply all_near_samples_cell_value; assumption.
Qed.

Lemma all_near_samples_all_shadow_witness :
  cell {| shape := (2, 2); samples := [[500; 700]; [900; 1100]] |} 1 1 1200 0 0 =
    Returns true.
Proof.
  apply all_near_samples_all_shadow.
  - split; [reflexivity | repeat constructor].
  - cbn. lia.
  - cbn. lia.
  - lia.
  - lia.
  - vm_compute. reflexivity.
  - repeat constructor; lia.
Defined.

(** A grid height of zero or less gives the empty grid, with a frame or
    without, and the grid width is not even looked at: it may be anything. *)
Theorem no_rows_when_height_not_positive (sensor : result ndarray) (w : world) (gh : Z) :
  py_index (grid_height (self w)) = Returns gh ->
  gh <= 0 ->
  snd (get_shadow_mask sensor w) = Returns [].
Proof.
  intros Hh Hgh. unfold get_shadow_mask, try_except, reduction, fallback.
  assert (Hrange : py_range gh = []).
  { unfold py_range. replace (Z.to_nat gh) with 0%nat by lia. reflexivity. }
  destruct sensor as [depth|e].
  - unfold bind at 1, lift at 1. unfold bind at 1, read at 1, bind at 1, get, ret at 1.
    rewrite Hh. unfold bind at 1, lift at 1. rewrite Hrange. reflexivity.
  - unfold bind at 1, lift at 1. cbn [is_Exception].
    unfold bind at 1, print, modify.
    unfold bind at 1, read at 1, bind at 1, get, ret at 1. cbn [self printed].
    rewrite Hh. unfold bind at 1, lift at 1. rewrite Hrange. reflexivity.
Qed.

Lemma no_rows_when_height_not_positive_witness :
  snd (get_shadow_mask (Returns small_frame) (serving (PyStr "wide") (PyInt 0) 1200)) =
    Returns [].
Proof.
  apply (no_rows_when_height_not_positive _ _ 0); [reflexivity | lia].
Defined.

(** When the grid height is not an integer, or the height is positive and
    the width is not an integer, [get_shadow_mask] raises [TypeError] for
    every outcome of the sensor read: the fallback of the [except] clause
    fails like the reduction did. *)
Theorem reducer_raises_on_non_integer_size (sensor : result ndarray) (w : world) :
  (py_index (grid_height (self w)) = Raises TypeError \/
   exists gh, py_index (grid_height (self w)) = Returns gh /\ 0 < gh /\
              py_index (grid_width (self w)) = Raises TypeError) ->
  snd (get_shadow_mask sensor w) = Raises TypeError.
Proof.
  intros Hbad. unfold get_shadow_mask, try_except.
  assert (Hfallback : forall e w1, self w1 = self w ->
            snd (fallback e w1) = Raises TypeError).
  { intros e w1 Hself. unfold fallback. unfold bind at 1, print, modify.
    unfold bind at 1, read at 1, bind at 1, get, ret at 1. cbn [self printed].
    rewrite Hself.
    destruct Hbad as [Hh | (gh & Hh & Hpos & Hw)]; rewrite Hh.
    - reflexivity.
    - unfold bind at 1, lift at 1.
      destruct (py_range_first gh Hpos) as [rows ->]. rewrite for_each_cons.
      unfold bind at 1, read at 1, bind at 1, get, ret at 1.
      cbn [self printed]. rewrite Hself, Hw. reflexivity. }
  destruct (reduction sensor w) as [w1 [mask|e]] eqn:Hred.
  - exfalso. revert Hred. unfold reduction. destruct sensor as [depth|e].
    + unfold bind at 1, lift at 1. unfold bind at 1, read at 1, bind at 1, get, ret at 1.
      destruct Hbad as [Hh | (gh & Hh & Hpos & Hw)]; rewrite Hh.
      * discriminate.
      * unfold bind at 1, lift at 1.
        destruct (py_range_first gh Hpos) as [rows ->]. rewrite for_each_cons.
        unfold bind at 1, read at 1, bind at 1, get, ret at 1.
        rewrite Hw. discriminate.
    + discriminate.
  - cbn [is_Exception]. apply Hfallback.
    apply reduction_state in Hred. subst w1. reflexivity.
Qed.

Lemma reducer_raises_on_non_integer_size_witness :
  snd (get_shadow_mask (Returns small_frame) (serving (PyInt 4) (PyFloat (FFinite (2 # 1))) 1200)) =
    Raises TypeError.
Proof.
  apply reducer_raises_on_non_integer_size. left. reflexivity.
Defined.

Lemma readonly_after_print {A} (d : diag) (rest : S A) (w : world) :
  preserves unchanged rest ->
  fst ((print d ;;; rest) w) = printed d w.
Proof.
  intros Hrest. unfold bind, print, modify. apply Hrest.
Qed.

(** The reducer never writes to the server object or to the wire, whatever
    the sensor and the configuration are; it prints at most one line, the
    error it caught. *)
Theorem reducer_only_prints_one_error (sensor : result ndarray) (w : world) :
  self (fst (get_shadow_mask sensor w)) = self w /\
  wire (fst (get_shadow_mask sensor w)) = wire w /\
  (stdout (fst (get_shadow_mask sensor w)) = stdout w \/
   exists e, stdout (fst (get_shadow_mask sensor w)) = stdout w ++ [DDepthError e]).
Proof.
  pose proof (get_shadow_mask_only_prints sensor w) as [Hself Hwire].
  split; [exact Hself|]. split; [exact Hwire|].
  unfold get_shadow_mask.
  assert (Hhandler : forall e, fst (fallback e w) = printed (DDepthError e) w).
  { intros e. unfold fallback. apply readonly_after_print.
    unfold read. preserve unchanged_refl unchanged_trans. }
  unfold try_except. pose proof (reduction_readonly sensor w) as Hbody.
  unfold unchanged in Hbody.
  destruct (reduction sensor w) as [w1 [mask|e]]; cbn [fst] in Hbody; subst w1.
  - left. reflexivity.
  - right. exists e. cbn [is_Exception]. rewrite Hhandler. reflexivity.
Qed.

(** ** Further properties of viewer sessions *)

Lemma py_getitem_error v key e :
  py_getitem v key = Raises e -> is_JSONDecodeError e = false.
Proof.
  destruct v; cbn [py_getitem]; try (intros H; inversion H; reflexivity).
  destruct (assoc key d); intros H; inversion H; reflexivity.
Qed.

Lemma py_int_error int_of_str v e :
  py_int int_of_str v = Raises e -> is_JSONDecodeError e = false.
Proof.
  destruct v as [| | |[| |]| | |]; cbn [py_int]; try (intros H; inversion H; reflexivity).
  destruct (int_of_str s); intros H; inversion H; reflexivity.
Qed.

(** A JSON object with neither [threshold] nor [grid_size] is accepted and
    ignored, whatever other fields it has: nothing changes, nothing is
    printed and the session goes on. *)
Theorem unknown_fields_are_ignored (json_loads : string -> option pyval)
    (int_of_str : string -> option Z) (text : string) (d : list (string * pyval))
    (w : world) :
  json_loads text = Some (PyDict d) ->
  assoc "threshold" d = None ->
  assoc "grid_size" d = None ->
  on_message json_loads int_of_str text w = (w, Returns tt).
Proof.
  intros Hloads Ht Hg. unfold on_message, try_except.
  unfold bind at 1, lift at 1. rewrite Hloads.
  unfold bind at 1, lift at 1. cbn [py_contains]. rewrite Ht.
  unfold bind at 1, ret at 1. unfold bind at 1, lift at 1. cbn [py_contains]. rewrite Hg.
  reflexivity.
Qed.

Lemma unknown_fields_are_ignored_witness :
  on_message (fun _ => Some (PyDict [("zoom", PyInt 2)])) (fun _ => None) "zoom"
             (serving (PyInt 160) (PyInt 120) 1200) =
    (serving (PyInt 160) (PyInt 120) 1200, Returns tt).
Proof.
  apply (unknown_fields_are_ignored _ _ _ [("zoom", PyInt 2)]); reflexivity.
Defined.

Lemma on_message_threshold json_loads int_of_str text d v w :
  json_loads text = Some (PyDict d) ->
  assoc "threshold" d = Some v ->
  assoc "grid_size" d = None ->
  on_message json_loads int_of_str text w =
    match py_int int_of_str v with
    | Returns t =>
      ({| self := set_depth_threshold t (self w);
          stdout := stdout w ++ [DThreshold t]; wire := wire w |}, Returns tt)
    | Raises e => (w, Raises e)
    end.
Proof.
  intros Hloads Ht Hg. unfold on_message, try_except.
  unfold bind at 1, lift at 1. rewrite Hloads.
  unfold bind at 1, lift at 1. cbn [py_contains]. rewrite Ht.
  unfold bind at 1. unfold bind at 1, lift at 1. cbn [py_getitem]. rewrite Ht.
  unfold bind at 1, lift at 1.
  destruct (py_int int_of_str v) as [t|e] eqn:Hint.
  - unfold bind at 1, update at 1, modify. unfold print at 1, modify.
    unfold bind at 1, lift at 1. cbn [py_contains self set_depth_threshold]. rewrite Hg.
    reflexivity.
  - rewrite (py_int_error _ _ _ Hint). reflexivity.
Qed.

(** A [threshold] field sets the depth threshold to [int] of its value (a
    number is truncated, a numeric string parsed) and leaves the grid and the
    connections alone; when [int] rejects the value, its exception leaves
    the handler and nothing has changed. *)
Theorem threshold_update (json_loads : string -> option pyval)
    (int_of_str : string -> option Z) (text : string) (d : list (string * pyval))
    (v : pyval) (w : world) :
  json_loads text = Some (PyDict d) ->
  assoc "threshold" d = Some v ->
  assoc "grid_size" d = None ->
  let w' := fst (on_message json_loads int_of_str text w) in
  (forall t, py_int int_of_str v = Returns t ->
     snd (on_message json_loads int_of_str text w) = Returns tt /\
     depth_threshold (self w') = t /\
     grid_width (self w') = grid_width (self w) /\
     grid_height (self w') = grid_height (self w) /\
     clients (self w') = clients (self w)) /\
  (forall e, py_int int_of_str v = Raises e ->
     snd (on_message json_loads int_of_str text w) = Raises e /\ w' = w).
Proof.
  intros Hloads Ht Hg. cbn zeta.
  rewrite (on_message_threshold _ _ _ _ _ _ Hloads Ht Hg).
  split; intros x Hx; rewrite Hx; repeat split; reflexivity.
Qed.

Lemma threshold_update_witness :
  let w := serving (PyInt 160) (PyInt 120) 1200 in
  let loads := fun _ : string => Some (PyDict [("threshold", PyFloat (FFinite (1999 # 2)))]) in
  depth_threshold (self (fst (on_message loads (fun _ => None) "threshold 999.5" w))) = 999.
Proof.
  intros w loads.
  destruct (threshold_update loads (fun _ => None) "threshold 999.5"
              [("threshold", PyFloat (FFinite (1999 # 2)))]
              (PyFloat (FFinite (1999 # 2))) w eq_refl eq_refl eq_refl) as [Hok _].
  destruct (Hok 999 eq_refl) as (_ & Ht & _). exact Ht.
Defined.

Lemma on_message_grid_size json_loads int_of_str text d g vw vh w :
  json_loads text = Some (PyDict d) ->
  assoc "threshold" d = None ->
  assoc "grid_size" d = Some (PyDict g) ->
  assoc "width" g = Some vw ->
  assoc "height" g = Some vh ->
  on_message json_loads int_of_str text w =
    ({| self := set_grid_height vh (set_grid_width vw (self w));
        stdout := stdout w ++ [DGridSize vw vh]; wire := wire w |}, Returns tt).
Proof.
  intros Hloads Ht Hg Hw Hh. unfold on_message, try_except.
  unfold bind at 1, lift at 1. rewrite Hloads.
  unfold bind at 1, lift at 1. cbn [py_contains]. rewrite Ht.
  unfold bind at 1, ret at 1. unfold bind at 1, lift at 1. cbn [py_contains]. rewrite Hg.
  unfold bind at 1. unfold bind at 1, lift at 1. cbn [py_getitem]. rewrite Hg.
  unfold bind at 1, lift at 1. cbn [py_getitem]. rewrite Hw.
  unfold bind at 1, update at 1, modify.
  unfold lift at 1. unfold bind at 1, lift at 1. cbn [py_getitem]. rewrite Hh.
  reflexivity.
Qed.

(** A [grid_size] object with [width] and [height] is stored as it comes:
    the two values become the grid dimensions whatever they are (negative,
    fractional, text), and the threshold and the connections stay. *)
Theorem grid_size_is_stored_unchecked (json_loads : string -> option pyval)
    (int_of_str : string -> option Z) (text : string)
    (d g : list (string * pyval)) (vw vh : pyval) (w : world) :
  json_loads text = Some (PyDict d) ->
  assoc "threshold" d = None ->
  assoc "grid_size" d = Some (PyDict g) ->
  assoc "width" g = Some vw ->
  assoc "height" g = Some vh ->
  let w' := fst (on_message json_loads int_of_str text w) in
  snd (on_message json_loads int_of_str text w) = Returns tt /\
  grid_width (self w') = vw /\
  grid_height (self w') = vh /\
  depth_threshold (self w') = depth_threshold (self w) /\
  clients (self w') = clients (self w).
Proof.
  intros Hloads Ht Hg Hw Hh. cbn zeta.
  rewrite (on_message_grid_size _ _ _ _ _ _ _ _ Hloads Ht Hg Hw Hh).
  repeat split; reflexivity.
Qed.

Lemma grid_size_is_stored_unchecked_witness :
  let w := serving (PyInt 160) (PyInt 120) 1200 in
  let g := [("width", PyStr "wide"); ("height", PyInt (-3))] in
  let loads := fun _ : string => Some (PyDict [("grid_size", PyDict g)]) in
  grid_width (self (fst (on_message loads (fun _ => None) "grid" w))) = PyStr "wide" /\
  grid_height (self (fst (on_message loads (fun _ => None) "grid" w))) = PyInt (-3).
Proof.
  intros w g loads.
  destruct (grid_size_is_stored_unchecked loads (fun _ => None) "grid"
              [("grid_size", PyDict g)] g (PyStr "wide") (PyInt (-3)) w
              eq_refl eq_refl eq_refl eq_refl eq_refl) as (_ & Hw & Hh & _).
  split; assumption.
Defined.

(** The update is not atomic: when the message has a good [threshold] and a
    [grid_size] whose [width] cannot be read, the threshold is already
    changed when the exception leaves the handler. *)
Theorem threshold_kept_when_grid_size_fails (json_loads : string -> option pyval)
    (int_of_str : string -> option Z) (text : string) (d : list (string * pyval))
    (v size : pyval) (t : Z) (e : exn) (w : world) :
  json_loads text = Some (PyDict d) ->
  assoc "threshold" d = Some v ->
  py_int int_of_str v = Returns t ->
  assoc "grid_size" d = Some size ->
  py_getitem size "width" = Raises e ->
  on_message json_loads int_of_str text w =
    ({| self := set_depth_threshold t (self w);
        stdout := stdout w ++ [DThreshold t]; wire := wire w |}, Raises e).
Proof.
  intros Hloads Ht Hint Hg Hw. unfold on_message, try_except.
  unfold bind at 1, lift at 1. rewrite Hloads.
  unfold bind at 1, lift at 1. cbn [py_contains]. rewrite Ht.
  unfold bind at 1. unfold bind at 1, lift at 1. cbn [py_getitem]. rewrite Ht.
  unfold bind at 1, lift at 1. rewrite Hint.
  unfold bind at 1, update at 1, modify. unfold print at 1, modify.
  unfold bind at 1, lift at 1. cbn [py_contains self set_depth_threshold]. rewrite Hg.
  unfold bind at 1, lift at 1. unfold bind at 1, lift at 1. rewrite Hw.
  rewrite (py_getitem_error _ _ _ Hw). reflexivity.
Qed.

Lemma threshold_kept_when_grid_size_fails_witness :
  let w := serving (PyInt 160) (PyInt 120) 1200 in
  let d := [("threshold", PyInt 900); ("grid_size", PyList [PyInt 80; PyInt 60])] in
  depth_threshold (self (fst (on_message (fun _ => Some (PyDict d)) (fun _ => None) "both" w)))
    = 900 /\
  snd (on_message (fun _ => Some (PyDict d)) (fun _ => None) "both" w) = Raises TypeError.
Proof.
  intros w d.
  rewrite (threshold_kept_when_grid_size_fails (fun _ => Some (PyDict d)) (fun _ => None)
             "both" d (PyInt 900) (PyList [PyInt 80; PyInt 60]) 900 TypeError w
             eq_refl eq_refl eq_refl eq_refl eq_refl).
  split; reflexivity.
Defined.

Lemma same_connections_refl w : same_connections w w.
Proof. repeat split. Qed.

Lemma same_connections_trans w1 w2 w3 :
  same_connections w1 w2 -> same_connections w2 w3 -> same_connections w1 w3.
Proof. intros (H1 & H2 & H3) (H4 & H5 & H6). repeat split; congruence. Qed.

(** Whatever a viewer sends, handling the message never touches the
    connection set, the running flag or the wire: a message can only change
    the three configuration values and print. *)
Theorem message_leaves_connections_alone (json_loads : string -> option pyval)
    (int_of_str : string -> option Z) (text : string) (w : world) :
  same_connections w (fst (on_message json_loads int_of_str text w)).
Proof.
  revert w. change (preserves same_connections (on_message json_loads int_of_str text)).
  unfold on_message, read, print, update.
  preserve same_connections_refl same_connections_trans; repeat split.
Qed.

Lemma session_loop_same_connections json_loads int_of_str incoming abrupt :
  preserves same_connections
    (try_except
       (for_each incoming (on_message json_loads int_of_str) ;;;
        if abrupt : bool then raise ConnectionClosed else ret tt)
       is_ConnectionClosed
       (fun _ => ret tt)).
Proof.
  unfold on_message, read, print, update.
  preserve same_connections_refl same_connections_trans; repeat split.
Qed.

(** However a session goes (any messages, a handler that raises, a clean or
    an abrupt close), when [handle_client] is left the viewer is out of the
    connection set and every other viewer is in it as before. *)
Theorem session_always_deregisters (json_loads : string -> option pyval)
    (int_of_str : string -> option Z) (c : client) (incoming : list string)
    (abrupt : bool) (w : world) :
  clients (self (fst (handle_client json_loads int_of_str c incoming abrupt w))) =
    clients (self w) ∖ {[c]}.
Proof.
  unfold handle_client.
  unfold bind at 1, read at 1, bind at 1, get, ret at 1.
  unfold bind at 1, update at 1, modify.
  unfold bind at 1, read at 1, bind at 1, get, ret at 1. cbn [self set_clients clients].
  unfold bind at 1, print at 1, modify.
  unfold try_finally.
  match goal with
  | |- context [try_except ?b ?c0 ?h ?s] =>
    pose proof (session_loop_same_connections json_loads int_of_str incoming abrupt s)
      as (Hcs & _ & _);
    destruct (try_except b c0 h s) as [w2 o]
  end.
  cbn [fst self printed clients set_clients] in Hcs.
  unfold on_close, remove_client, read, bind, get, ret.
  rewrite Hcs. case_decide as Hin; [|exfalso; apply Hin, elem_of_union_l, elem_of_singleton; reflexivity].
  unfold update, print, modify, printed.
  assert (Hset : ({[c]} ∪ clients (self w)) ∖ {[c]} = clients (self w) ∖ {[c]}).
  { apply set_eq. intros x.
    rewrite !elem_of_difference, elem_of_union, elem_of_singleton. tauto. }
  destruct o; cbn [fst self clients set_clients]; exact Hset.
Qed.

Lemma bind_ext {St E A B} (m : M St E A) (k1 k2 : A -> M St E B) (s : St) :
  (forall a s', k1 a s' = k2 a s') -> bind m k1 s = bind m k2 s.
Proof.
  intros Hk. unfold bind. destruct (m s) as [s' [a|e]]; [apply Hk | reflexivity].
Qed.

(** A connection that breaks instead of closing cleanly changes nothing:
    [ConnectionClosed] is caught, and [handle_client] ends exactly as it does
    after a clean close. *)
Theorem abrupt_close_like_clean_close (json_loads : string -> option pyval)
    (int_of_str : string -> option Z) (c : client) (incoming : list string) (w : world) :
  handle_client json_loads int_of_str c incoming true w =
  handle_client json_loads int_of_str c incoming false w.
Proof.
  unfold handle_client.
  repeat (apply bind_ext; intros).
  unfold try_finally, try_except, bind, raise, ret.
  match goal with
  | |- context [for_each ?xs ?f ?s] => destruct (for_each xs f s) as [? [?|?]]
  end; reflexivity.
Qed.

Lemma invalid_texts_logged json_loads int_of_str (incoming : list string) (w : world) :
  List.Forall (fun text => json_loads text = None) incoming ->
  for_each incoming (on_message json_loads int_of_str) w =
    ({| self := self w; stdout := stdout w ++ map DInvalidJson incoming; wire := wire w |},
     Returns (map (fun _ => tt) incoming)).
Proof.
  intros Hall. revert w. induction Hall as [|text incoming Htext _ IH]; intros w.
  - cbn [for_each map]. unfold ret. rewrite app_nil_r. destruct w; reflexivity.
  - cbn [for_each map]. unfold bind at 1.
    rewrite (on_message_invalid_json _ _ _ _ Htext).
    unfold bind at 1. rewrite IH. unfold ret, printed. cbn [self stdout wire].
    rewrite <- app_assoc. reflexivity.
Qed.

(** A session in which every message is text that is not JSON: each message
    is logged once, in order, between the connect and the disconnect lines;
    the configuration is what it was; the handler returns normally and a
    viewer that was not registered before is not registered after. *)
Theorem session_of_invalid_texts (json_loads : string -> option pyval)
    (int_of_str : string -> option Z) (c : client) (incoming : list string)
    (abrupt : bool) (w : world) :
  List.Forall (fun text => json_loads text = None) incoming ->
  c ∉ clients (self w) ->
  handle_client json_loads int_of_str c incoming abrupt w =
    ({| self := self w;
        stdout := stdout w ++
                  [DConnected c (Datatypes.S (size (clients (self w))))] ++
                  map DInvalidJson incoming ++
                  [DDisconnected c (size (clients (self w)))];
        wire := wire w |}, Returns tt).
Proof.
  intros Hall Hfresh.
  assert (Hback : ({[c]} ∪ clients (self w)) ∖ {[c]} = clients (self w)).
  { apply set_eq. intros x.
    rewrite elem_of_difference, elem_of_union, elem_of_singleton. split.
    - tauto.
    - intros Hx. split; [tauto|]. intros ->. contradiction. }
  assert (Hsize : size ({[c]} ∪ clients (self w)) = Datatypes.S (size (clients (self w)))).
  { rewrite size_union by (apply disjoint_singleton_l; exact Hfresh).
    rewrite size_singleton. reflexivity. }
  unfold handle_client.
  unfold bind at 1, read at 1, bind at 1, get, ret at 1.
  unfold bind at 1, update at 1, modify.
  unfold bind at 1, read at 1, bind at 1, get, ret at 1. cbn [self set_clients clients].
  unfold bind at 1, print at 1, modify.
  unfold try_finally, try_except. unfold bind at 1.
  rewrite (invalid_texts_logged _ _ _ _ Hall).
  destruct abrupt; unfold raise, ret at 1; cbn [is_ConnectionClosed];
    unfold on_close, remove_client, read, bind, get, ret;
    cbn [self printed clients set_clients];
    (case_decide as Hin;
       [|exfalso; apply Hin, elem_of_union_l, elem_of_singleton; reflexivity]);
    unfold update, print, modify, printed; cbn [self stdout wire clients set_clients];
    rewrite Hback, Hsize; unfold set_clients;
    cbn [grid_width grid_height depth_threshold clients is_running];
    rewrite <- !app_assoc; destruct w as [[gw gh t cs r] out wr]; reflexivity.
Qed.

Lemma session_of_invalid_texts_witness :
  snd (handle_client (fun _ => None) (fun _ => None) 5%nat ["hello"; "{oops"] true
         (serving (PyInt 160) (PyInt 120) 1200)) = Returns tt /\
  stdout (fst (handle_client (fun _ => None) (fun _ => None) 5%nat ["hello"; "{oops"] true
                 (serving (PyInt 160) (PyInt 120) 1200))) =
    [DConnected 5%nat 3; DInvalidJson "hello"; DInvalidJson "{oops"; DDisconnected 5%nat 2].
Proof.
  rewrite (session_of_invalid_texts (fun _ => None) (fun _ => None) 5%nat
             ["hello"; "{oops"] true (serving (PyInt 160) (PyInt 120) 1200)).
  - split; reflexivity.
  - repeat constructor.
  - cbn. intros H. apply elem_of_union in H.
    destruct H as [H|H]; apply elem_of_singleton in H; discriminate H.
Defined.

(** ** Further properties of the broadcast loop *)

(** With no viewer connected the loop does nothing, however many passes it
    makes: the sensor is not polled, nothing is printed or sent, and the
    frame counter stays where it was. *)
Theorem no_viewer_no_work (ticks : list (result ndarray * (client -> result unit)))
    (fc : Z) (w : world) :
  clients (self w) = ∅ ->
  broadcast_loop ticks fc w = (w, Returns fc).
Proof.
  intros Hcs. induction ticks as [|[sensor send] ticks IH]; cbn [broadcast_loop].
  - reflexivity.
  - unfold bind at 1, read at 1, bind at 1, get, ret at 1.
    destruct (is_running (self w)); [|reflexivity].
    unfold bind at 1. rewrite broadcast_iteration_idle by exact Hcs. exact IH.
Qed.

Lemma no_viewer_no_work_witness :
  broadcast_shadow_data
    [(Raises (SensorError "unplugged"), fun _ => Raises ConnectionClosed);
     (Returns small_frame, fun _ => Returns tt)]
    (new_world (new_server 160 120 1200)) =
  (new_world (new_server 160 120 1200), Returns 0).
Proof.
  apply no_viewer_no_work. reflexivity.
Defined.





(** An exception that leaves the reducer is not caught by the loop: the
    pass sends nothing, the exception leaves [broadcast_shadow_data], and the
    passes that would have followed never happen. *)
Theorem reducer_exception_ends_loop (sensor : result ndarray)
    (send : client -> result unit)
    (ticks : list (result ndarray * (client -> result unit)))
    (fc : Z) (w w1 : world) (e : exn) :
  clients (self w) <> ∅ ->
  is_running (self w) = true ->
  get_shadow_mask sensor w = (w1, Raises e) ->
  broadcast_loop ((sensor, send) :: ticks) fc w = (w1, Raises e) /\
  wire w1 = wire w /\ self w1 = self w.
Proof.
  intros Hcs Hrun Hmask.
  pose proof (get_shadow_mask_only_prints sensor w) as [Hself Hwire].
  rewrite Hmask in Hself, Hwire. cbn [fst] in Hself, Hwire.
  split; [|split; assumption].
  cbn [broadcast_loop]. unfold bind at 1, read at 1, bind at 1, get, ret at 1.
  rewrite Hrun. unfold bind at 1.
  rewrite (broadcast_iteration_raises sensor send fc w w1 e Hcs Hmask). reflexivity.
Qed.

Lemma reducer_exception_ends_loop_witness :
  let w := serving (PyStr "wide") (PyInt 2) 1200 in
  snd (broadcast_shadow_data
         [(Returns small_frame, fun _ => Returns tt);
          (Returns small_frame, fun _ => Returns tt)] w) = Raises TypeError /\
  wire (fst (broadcast_shadow_data
               [(Returns small_frame, fun _ => Returns tt);
                (Returns small_frame, fun _ => Returns tt)] w)) = [].
Proof.
  intros w.
  destruct (reducer_exception_ends_loop (Returns small_frame) (fun _ => Returns tt)
              [(Returns small_frame, fun _ : client => Returns tt)] 0 w
              (printed (DDepthError TypeError) w) TypeError) as (Hloop & Hwire & _);
    try reflexivity.
  - intros H. assert (Hin : 1%nat ∈ clients (self w)).
    { cbn. apply elem_of_union_l, elem_of_singleton. reflexivity. }
    rewrite H in Hin. exact (not_elem_of_empty _ Hin).
  - split.
    + exact (f_equal snd Hloop).
    + exact (eq_trans (f_equal (fun p => wire (fst p)) Hloop) Hwire).
Defined.



End ServerFacts.
